(** * nextjs-dashboard: invoice server actions and the search box

    A shallow embedding of the two functional pieces of the dashboard:

    - the server actions [createInvoice], [updateInvoice], [deleteInvoice]
      and [authenticate], together with the Zod schema [FormSchema] they
      validate against;
    - the debounced [handleSearch] callback of the [Search] component.

    JavaScript values are modelled as they exist at run time: a number is an
    IEEE-754 binary64 value (Rocq's primitive [float]), a string is its
    sequence of UTF-8 bytes, [FormData] and [URLSearchParams] are ordered
    lists of pairs, and the object returned by [flatten] is a finite map.
    The collaborators (SQL storage, cache revalidation, navigation, sign-in,
    the router) are modelled by an explicit world that the actions thread
    through a small state-and-exception monad. *)

From Stdlib Require Import ZArith Ascii String.
From Stdlib Require Import PrimFloat SpecFloat FloatOps FloatAxioms.
From stdpp Require Import gmap strings list pretty.

Local Open Scope string_scope.
Local Open Scope list_scope.
Local Open Scope Z_scope.

(** ** JavaScript numbers: [Number(string)] *)

Module JsNumber.

Definition code (c : ascii) : Z := Z.of_N (N_of_ascii c).

(** One-byte members of StrWhiteSpaceChar: TAB, LF, VT, FF, CR, SP. *)
Definition ws1 (c : ascii) : bool :=
  let n := code c in ((9 <=? n) && (n <=? 13)) || (n =? 32).

(** Two-byte member: U+00A0 (C2 A0). *)
Definition ws2 (c1 c2 : ascii) : bool :=
  (code c1 =? 194) && (code c2 =? 160).

(** Three-byte members: U+1680, U+2000..U+200A, U+2028, U+2029, U+202F,
    U+205F, U+3000 and U+FEFF. *)
Definition ws3 (c1 c2 c3 : ascii) : bool :=
  let '(a, b, c) := (code c1, code c2, code c3) in
  ((a =? 225) && (b =? 154) && (c =? 128))
  || ((a =? 226) && (b =? 128)
      && (((128 <=? c) && (c <=? 138)) || (c =? 168) || (c =? 169) || (c =? 175)))
  || ((a =? 226) && (b =? 129) && (c =? 159))
  || ((a =? 227) && (b =? 128) && (c =? 128))
  || ((a =? 239) && (b =? 187) && (c =? 191)).

(** Drop the leading StrWhiteSpace of a string. *)
Fixpoint trimStart (s : string) : string :=
  match s with
  | String c1 r1 =>
      if ws1 c1 then trimStart r1 else
      match r1 with
      | String c2 r2 =>
          if ws2 c1 c2 then trimStart r2 else
          match r2 with
          | String c3 r3 => if ws3 c1 c2 c3 then trimStart r3 else s
          | EmptyString => s
          end
      | EmptyString => s
      end
  | EmptyString => s
  end.

Definition digit (radix : Z) (c : ascii) : option Z :=
  let n := code c in
  let v := if (48 <=? n) && (n <=? 57) then n - 48
           else if (97 <=? n) && (n <=? 102) then n - 87
           else if (65 <=? n) && (n <=? 70) then n - 55
           else radix in
  if v <? radix then Some v else None.

(** Longest prefix of digits of the radix: accumulated value, number of
    digits read, rest of the string. *)
Fixpoint digits (radix acc : Z) (n : nat) (s : string) : Z * nat * string :=
  match s with
  | String c r =>
      match digit radix c with
      | Some d => digits radix (radix * acc + d) (S n) r
      | None => (acc, n, s)
      end
  | EmptyString => (acc, n, s)
  end.

(** The binary64 value nearest to [n / d] (ties to even), for [0 < n]
    and [0 < d]: the quotient is computed with more than 64 significant
    bits and a sticky bit, then rounded once. *)
Definition roundQ (n d : Z) : float :=
  let k := Z.max 0 (66 + Z.log2 d - Z.log2 n) in
  let q := (n * 2 ^ k) / d in
  let sticky := if (n * 2 ^ k) mod d =? 0 then 0 else 1 in
  SF2Prim (binary_normalize 53 1024 (2 * q + sticky) (- (k + 1)) false).

(** The value of mantissa [m >= 0] times ten to the [e]. *)
Definition decimal (m e : Z) : float :=
  if m =? 0 then PrimFloat.zero
  else if 0 <=? e then roundQ (m * 10 ^ e) 1
  else roundQ m (10 ^ (- e)).

Definition signed (neg : bool) (f : float) : float :=
  if neg then PrimFloat.opp f else f.

(** After the literal only StrWhiteSpace may follow. *)
Definition finish (f : float) (rest : string) : float :=
  match trimStart rest with
  | EmptyString => f
  | _ => PrimFloat.nan
  end.

(** ExponentPart, when present and well formed. *)
Definition exponent (s : string) : Z * string :=
  match s with
  | String c r =>
      if (code c =? 101) || (code c =? 69) then
        let '(neg, r') :=
          match r with
          | String c' r'' =>
              if code c' =? 45 then (true, r'')
              else if code c' =? 43 then (false, r'')
              else (false, r)
          | EmptyString => (false, r)
          end in
        let '(v, n, rest) := digits 10 0 0%nat r' in
        match n with
        | O => (0, s)
        | _ => (if neg then - v else v, rest)
        end
      else (0, s)
  | EmptyString => (0, s)
  end.

Fixpoint stripPrefix (p s : string) : option string :=
  match p, s with
  | EmptyString, _ => Some s
  | String a p', String b s' => if Ascii.eqb a b then stripPrefix p' s' else None
  | String _ _, EmptyString => None
  end.

(** StrUnsignedDecimalLiteral, already stripped of its sign. *)
Definition unsignedDecimal (neg : bool) (s : string) : float :=
  match stripPrefix "Infinity" s with
  | Some rest => finish (signed neg PrimFloat.infinity) rest
  | None =>
      let '(i, ni, r1) := digits 10 0 0%nat s in
      let '(m, nf, r2) :=
        match r1 with
        | String c r =>
            if code c =? 46 then
              let '(m, nf, r2) := digits 10 i 0%nat r in (m, nf, r2)
            else (i, 0%nat, r1)
        | EmptyString => (i, 0%nat, r1)
        end in
      match ni, nf with
      | O, O => PrimFloat.nan
      | _, _ =>
          let '(e, r3) := exponent r2 in
          finish (signed neg (decimal m (e - Z.of_nat nf))) r3
      end
  end.

(** NonDecimalIntegerLiteral: [0x], [0o], [0b] and their digits. *)
Definition nonDecimal (s : string) : option float :=
  match s with
  | String z (String p r) =>
      let n := code p in
      let radix :=
        if (n =? 120) || (n =? 88) then 16
        else if (n =? 111) || (n =? 79) then 8
        else if (n =? 98) || (n =? 66) then 2
        else 0 in
      if (code z =? 48) && (0 <? radix) then
        let '(v, k, rest) := digits radix 0 0%nat r in
        match k with
        | O => Some PrimFloat.nan
        | _ => Some (finish (if v =? 0 then PrimFloat.zero else roundQ v 1) rest)
        end
      else None
  | _ => None
  end.

(** StringToNumber of ECMA-262: the empty or all-blank string is [+0],
    anything that is not a StringNumericLiteral is [NaN]. *)
Definition StringToNumber (str : string) : float :=
  match trimStart str with
  | EmptyString => PrimFloat.zero
  | String c r as s =>
      match nonDecimal s with
      | Some f => f
      | None =>
          if code c =? 45 then unsignedDecimal true r
          else if code c =? 43 then unsignedDecimal false r
          else unsignedDecimal false s
      end
  end.

End JsNumber.

(** ** JavaScript values that reach the server actions *)

Inductive JsValue :=
| JsUndefined
| JsNull
| JsString (s : string)
| JsNumber (n : float)
| JsFile (name : string).

(** A plain object: its own properties by name. *)
Abbreviation JsObject := (gmap string JsValue).

(** [obj.key]: the property, or [undefined] when the object has none. *)
Definition prop (obj : JsObject) (key : string) : JsValue :=
  default JsUndefined (obj !! key).

(** [Number(v)], that is ToNumber: a [File] is an object whose primitive
    value is the string "[object File]", hence [NaN]. *)
Definition Number (v : JsValue) : float :=
  match v with
  | JsUndefined => PrimFloat.nan
  | JsNull => PrimFloat.zero
  | JsString s => JsNumber.StringToNumber s
  | JsNumber n => n
  | JsFile _ => PrimFloat.nan
  end.

(** [a * b] on JavaScript values. *)
Definition js_mul (a b : JsValue) : JsValue :=
  JsNumber (PrimFloat.mul (Number a) (Number b)).

(** ** FormData *)

Inductive FormDataEntryValue :=
| EntryString (s : string)
| EntryFile (name : string).

Definition FormData := list (string * FormDataEntryValue).

Module FormData.

Definition value (e : FormDataEntryValue) : JsValue :=
  match e with
  | EntryString s => JsString s
  | EntryFile n => JsFile n
  end.

(** [formData.get(name)]: the first value of that name, else [null]. *)
Fixpoint get (formData : FormData) (name : string) : JsValue :=
  match formData with
  | [] => JsNull
  | (k, v) :: rest => if String.eqb k name then value v else get rest name
  end.

End FormData.

(** ** Zod: the part of the schema library that [FormSchema] uses *)

Module z.

Inductive ZodParsedType :=
| Ty_string | Ty_nan | Ty_number | Ty_undefined | Ty_null | Ty_object.

Definition getParsedType (data : JsValue) : ZodParsedType :=
  match data with
  | JsUndefined => Ty_undefined
  | JsNull => Ty_null
  | JsString _ => Ty_string
  | JsNumber n => if PrimFloat.is_nan n then Ty_nan else Ty_number
  | JsFile _ => Ty_object
  end.

Definition typeName (t : ZodParsedType) : string :=
  match t with
  | Ty_string => "string"
  | Ty_nan => "nan"
  | Ty_number => "number"
  | Ty_undefined => "undefined"
  | Ty_null => "null"
  | Ty_object => "object"
  end.

Inductive ZodIssueCode := invalid_type | invalid_enum_value | too_small.

Record ZodIssue := {
  code : ZodIssueCode;
  path : list string;
  message : string
}.

(** The creation parameters a schema may carry. *)
Record RawCreateParams := {
  invalid_type_error : option string;
  required_error : option string
}.

Definition noParams : RawCreateParams :=
  {| invalid_type_error := None; required_error := None |}.

(** A [min] check of a number schema, as [gt] and [gte] record it. *)
Record ZodNumberCheck := {
  min_value : float;
  inclusive : bool;
  check_message : string
}.

Inductive ZodType :=
| ZodString (params : RawCreateParams)
| ZodNumber (coerce : bool) (checks : list ZodNumberCheck)
| ZodEnum (values : list string) (params : RawCreateParams).

(** [z.coerce.number().gt(value, { message })] *)
Definition coerce_number_gt (value : float) (message : string) : ZodType :=
  ZodNumber true [ {| min_value := value; inclusive := false; check_message := message |} ].

(** [util.joinValues]: quoted values separated by " | ". *)
Fixpoint joinValues (values : list string) : string :=
  match values with
  | [] => ""
  | [v] => "'" +:+ v +:+ "'"
  | v :: rest => "'" +:+ v +:+ "' | " +:+ joinValues rest
  end.

(** The default (English) error map, on the issues that can arise. *)
Definition invalidTypeDefault (expected : string) (data : JsValue) : string :=
  match getParsedType data with
  | Ty_undefined => "Required"
  | t => "Expected " +:+ expected +:+ ", received " +:+ typeName t
  end.

(** The error map that creation parameters install on a schema: it only
    speaks about [invalid_type] issues. *)
Definition invalidTypeMessage (params : RawCreateParams) (expected : string)
    (data : JsValue) : string :=
  match data with
  | JsUndefined => default (invalidTypeDefault expected data) (required_error params)
  | _ => default (invalidTypeDefault expected data) (invalid_type_error params)
  end.

Inductive ParseStatus := valid | dirty | aborted.

(** The result of [_parse]: status, value, and the issues added to the
    parse context on the way. *)
Record ParseReturn := {
  status : ParseStatus;
  value : JsValue;
  issues : list ZodIssue
}.

Definition OK (v : JsValue) : ParseReturn :=
  {| status := valid; value := v; issues := [] |}.

Definition INVALID (i : ZodIssue) : ParseReturn :=
  {| status := aborted; value := JsUndefined; issues := [i] |}.

(** The [min] checks of a number, run in order; a failed check adds its
    issue and marks the result dirty. *)
Fixpoint runChecks (p : list string) (n : float) (checks : list ZodNumberCheck)
    : ParseStatus * list ZodIssue :=
  match checks with
  | [] => (valid, [])
  | c :: rest =>
      let '(st, iss) := runChecks p n rest in
      let tooSmall := if inclusive c then PrimFloat.ltb n (min_value c)
                      else PrimFloat.leb n (min_value c) in
      if tooSmall
      then (dirty, {| code := too_small; path := p; message := check_message c |} :: iss)
      else (st, iss)
  end.

(** [schema._parse] at path [p]. *)
Definition parse (schema : ZodType) (p : list string) (data : JsValue) : ParseReturn :=
  match schema with
  | ZodString params =>
      match data with
      | JsString _ => OK data
      | _ => INVALID {| code := invalid_type; path := p;
                        message := invalidTypeMessage params "string" data |}
      end
  | ZodNumber coerce checks =>
      let data := if coerce then JsNumber (Number data) else data in
      match data with
      | JsNumber n =>
          if PrimFloat.is_nan n
          then INVALID {| code := invalid_type; path := p;
                          message := invalidTypeDefault "number" data |}
          else let '(st, iss) := runChecks p n checks in
               {| status := st; value := data; issues := iss |}
      | _ => INVALID {| code := invalid_type; path := p;
                        message := invalidTypeDefault "number" data |}
      end
  | ZodEnum values params =>
      match data with
      | JsString s =>
          if existsb (String.eqb s) values then OK data
          else INVALID {| code := invalid_enum_value; path := p;
                          message := "Invalid enum value. Expected " +:+ joinValues values
                                     +:+ ", received '" +:+ s +:+ "'" |}
      | _ => INVALID {| code := invalid_type; path := p;
                        message := invalidTypeMessage params (joinValues values) data |}
      end
  end.

(** An object schema is its shape, in declaration order. *)
Definition ZodObject := list (string * ZodType).

(** [schema.omit(mask)] *)
Definition omit (mask : list string) (schema : ZodObject) : ZodObject :=
  List.filter (fun kv => negb (existsb (String.eqb (fst kv)) mask)) schema.

Inductive SafeParseReturn :=
| success (data : JsObject)
| failure (error : list ZodIssue).

Definition mergeStatus (a b : ParseStatus) : ParseStatus :=
  match a, b with
  | aborted, _ | _, aborted => aborted
  | dirty, _ | _, dirty => dirty
  | valid, valid => valid
  end.

(** Every key of the shape is parsed, whatever happened to the keys before
    it; unknown keys of the input are stripped. *)
Fixpoint parseObject (schema : ZodObject) (data : JsObject)
    : ParseStatus * JsObject * list ZodIssue :=
  match schema with
  | [] => (valid, ∅, [])
  | (key, field) :: rest =>
      let r := parse field [key] (prop data key) in
      let '(st, obj, iss) := parseObject rest data in
      (mergeStatus (status r) st, <[key := value r]> obj, issues r ++ iss)
  end.

Definition safeParse (schema : ZodObject) (data : JsObject) : SafeParseReturn :=
  let '(st, obj, iss) := parseObject schema data in
  match st with
  | valid => success obj
  | _ => failure iss
  end.

Record FlattenedError := {
  formErrors : list string;
  fieldErrors : gmap string (list string)
}.

(** [error.flatten()]: messages grouped by the first element of the path,
    in the order of the issues. *)
Fixpoint flatten (error : list ZodIssue) : FlattenedError :=
  match error with
  | [] => {| formErrors := []; fieldErrors := ∅ |}
  | i :: rest =>
      let f := flatten rest in
      match path i with
      | [] => {| formErrors := message i :: formErrors f; fieldErrors := fieldErrors f |}
      | k :: _ =>
          {| formErrors := formErrors f;
             fieldErrors := <[k := message i :: default [] (fieldErrors f !! k)]> (fieldErrors f) |}
      end
  end.

End z.

(** ** The world of a server action *)

(** A row of the [invoices] table. *)
Module Sql.

Record Row := {
  id : string;
  customer_id : JsValue;
  amount : JsValue;
  status : JsValue;
  date : JsValue
}.

End Sql.

(** The three statements of the actions, with their bound parameters. *)
Inductive SqlStatement :=
| INSERT_INTO_invoices (customer_id amount status date : JsValue)
| UPDATE_invoices (customer_id amount status : JsValue) (id : string)
| DELETE_FROM_invoices (id : string).

(** What can be thrown: an [AuthError] of the sign-in library with its
    [type], the redirect signal of the framework, any other error. *)
Inductive JsError :=
| AuthError (type : string) (message : string)
| NEXT_REDIRECT (url : string)
| OtherError (message : string).

Definition errorMessage (e : JsError) : string :=
  match e with
  | AuthError _ m => m
  | NEXT_REDIRECT _ => "NEXT_REDIRECT"
  | OtherError m => m
  end.

(** The calls an action makes to its collaborators, in order. *)
Inductive Event :=
| Sql (statement : SqlStatement) (ok : bool)
| RevalidatePath (path : string)
| Redirect (url : string)
| SignIn (provider : string) (formData : FormData)
| ConsoleError (text : string).

Record World := {
  (** the [invoices] table *)
  invoices : list Sql.Row;
  (** the error with which storage rejects a statement, if it does *)
  sqlFault : SqlStatement -> list Sql.Row -> option JsError;
  (** the identifier storage gives to a new row *)
  newId : list Sql.Row -> string;
  (** [new Date().toISOString()] *)
  now : string;
  (** the error with which [signIn] fails, if it does *)
  signInFault : string -> FormData -> option JsError;
  (** the calls made so far *)
  log : list Event
}.

Definition withInvoices (rows : list Sql.Row) (w : World) : World :=
  {| invoices := rows; sqlFault := sqlFault w; newId := newId w; now := now w;
     signInFault := signInFault w; log := log w |}.

Definition logged (e : Event) (w : World) : World :=
  {| invoices := invoices w; sqlFault := sqlFault w; newId := newId w; now := now w;
     signInFault := signInFault w; log := log w ++ [e] |}.

(** *** Completions and the action monad *)

Inductive Completion (A : Type) :=
| Return (a : A)
| Throw (e : JsError).

Arguments Return {A} a.
Arguments Throw {A} e.

Definition Action (A : Type) : Type := World -> Completion A * World.

Definition ret {A} (a : A) : Action A := fun w => (Return a, w).

Definition throw {A} (e : JsError) : Action A := fun w => (Throw e, w).

Definition bind {A B} (c : Action A) (k : A -> Action B) : Action B :=
  fun w =>
    match c w with
    | (Return a, w') => k a w'
    | (Throw e, w') => (Throw e, w')
    end.

(** [try { body } catch (error) { handler }]: the world keeps what the body
    did before it threw. *)
Definition tryCatch {A} (body : Action A) (handler : JsError -> Action A) : Action A :=
  fun w =>
    match body w with
    | (Return a, w') => (Return a, w')
    | (Throw e, w') => handler e w'
    end.

Declare Scope action_scope.
Delimit Scope action_scope with action.
Notation "x <- c ;; k" := (bind c (fun x => k))
  (at level 100, c at next level, k at level 200, right associativity) : action_scope.
Notation "c ;; k" := (bind c (fun _ => k))
  (at level 100, k at level 200, right associativity) : action_scope.
Local Open Scope action_scope.

(** *** Collaborators *)

Module Storage.

(** What a statement does to the table when storage accepts it. *)
Definition exec (newId : list Sql.Row -> string) (statement : SqlStatement)
    (rows : list Sql.Row) : list Sql.Row :=
  match statement with
  | INSERT_INTO_invoices customer_id amount status date =>
      rows ++ [ {| Sql.id := newId rows; Sql.customer_id := customer_id;
                   Sql.amount := amount; Sql.status := status; Sql.date := date |} ]
  | UPDATE_invoices customer_id amount status id =>
      List.map (fun r =>
             if String.eqb (Sql.id r) id
             then {| Sql.id := Sql.id r; Sql.customer_id := customer_id;
                     Sql.amount := amount; Sql.status := status; Sql.date := Sql.date r |}
             else r) rows
  | DELETE_FROM_invoices id =>
      List.filter (fun r => negb (String.eqb (Sql.id r) id)) rows
  end.

End Storage.

(** [await sql`...`]: one statement, applied whole or rejected whole. *)
Definition sql (statement : SqlStatement) : Action unit :=
  fun w =>
    match sqlFault w statement (invoices w) with
    | Some e => (Throw e, logged (Sql statement false) w)
    | None =>
        (Return tt,
         logged (Sql statement true)
           (withInvoices (Storage.exec (newId w) statement (invoices w)) w))
    end.

(** [revalidatePath] marks the cached view of a path stale and returns. *)
Definition revalidatePath (path : string) : Action unit :=
  fun w => (Return tt, logged (RevalidatePath path) w).

(** [redirect] never returns: it throws the framework's redirect signal. *)
Definition redirect {A} (url : string) : Action A :=
  fun w => (Throw (NEXT_REDIRECT url), logged (Redirect url) w).

Definition signIn (provider : string) (formData : FormData) : Action unit :=
  fun w =>
    match signInFault w provider formData with
    | Some e => (Throw e, logged (SignIn provider formData) w)
    | None => (Return tt, logged (SignIn provider formData) w)
    end.

Definition console_error (text : string) : Action unit :=
  fun w => (Return tt, logged (ConsoleError text) w).

(** [s.split('T')[0]] *)
Fixpoint beforeT (s : string) : string :=
  match s with
  | String c r => if Ascii.eqb c "T"%char then EmptyString else String c (beforeT r)
  | EmptyString => EmptyString
  end.

(** [new Date().toISOString()] *)
Definition toISOString_now : Action string := fun w => (Return (now w), w).

(** ** The server actions *)

(** [FormSchema] conforms with the Invoice type definition. *)
Definition FormSchema : z.ZodObject :=
  [ ("id", z.ZodString z.noParams);
    ("customerId", z.ZodString {| z.invalid_type_error := Some "Please select a customer";
                                  z.required_error := None |});
    ("amount", z.coerce_number_gt 0%float "Please enter an amount greater than $0");
    ("status", z.ZodEnum ["pending"; "paid"]
                 {| z.invalid_type_error := Some "Please select an invoice status";
                    z.required_error := None |});
    ("date", z.ZodString z.noParams) ].

Record State := {
  errors : option (gmap string (list string));
  message : option string
}.

Definition CreateInvoice : z.ZodObject := z.omit ["id"; "date"] FormSchema.

Definition createInvoice (prevState : State) (formData : FormData) : Action State :=
  (* Validate form using Zod *)
  let validatedFields :=
    z.safeParse CreateInvoice
      {[ "customerId" := FormData.get formData "customerId";
         "amount" := FormData.get formData "amount";
         "status" := FormData.get formData "status" ]} in
  match validatedFields with
  | z.failure error =>
      (* If form validation fails, return errors early *)
      ret {| errors := Some (z.fieldErrors (z.flatten error));
             message := Some "Missing fields. Failed to create invoice." |}
  | z.success data =>
      let customerId := prop data "customerId" in
      let amount := prop data "amount" in
      let status := prop data "status" in
      let amountInCents := js_mul amount (JsNumber 100%float) in
      iso <- toISOString_now ;;
      let date := JsString (beforeT iso) in
      (* Inserting form data into the database *)
      caught <- tryCatch
                  (sql (INSERT_INTO_invoices customerId amountInCents status date) ;;
                   ret None)
                  (fun error =>
                     ret (Some {| errors := None;
                                  message := Some "Database error: Failed to create invoice." |})) ;;
      match caught with
      | Some state => ret state
      | None =>
          revalidatePath "/dashboard/invoices" ;;
          redirect "/dashboard/invoices"
      end
  end.

Definition UpdateInvoice : z.ZodObject := z.omit ["id"; "date"] FormSchema.

Definition updateInvoice (id : string) (prevState : State) (formData : FormData)
    : Action State :=
  (* Validate form using Zod *)
  let validatedFields :=
    z.safeParse UpdateInvoice
      {[ "customerId" := FormData.get formData "customerId";
         "amount" := FormData.get formData "amount";
         "status" := FormData.get formData "status" ]} in
  match validatedFields with
  | z.failure error =>
      ret {| errors := Some (z.fieldErrors (z.flatten error));
             message := Some "Missing fields or invalid amount. Failed to update invoice." |}
  | z.success data =>
      let customerId := prop data "customerId" in
      let amount := prop data "amount" in
      let status := prop data "status" in
      let amountInCents := js_mul amount (JsNumber 100%float) in
      caught <- tryCatch
                  (sql (UPDATE_invoices customerId amountInCents status id) ;;
                   ret None)
                  (fun error =>
                     ret (Some {| errors := None;
                                  message := Some "Database error: Failed to create invoice." |})) ;;
      match caught with
      | Some state => ret state
      | None =>
          revalidatePath "/dashboard/invoices" ;;
          redirect "/dashboard/invoices"
      end
  end.

Definition deleteInvoice (id : string) : Action unit :=
  tryCatch
    (sql (DELETE_FROM_invoices id) ;;
     revalidatePath "/dashbaord/invoices")
    (fun error =>
       console_error (errorMessage error) ;;
       throw (OtherError "Database error: Failed to delete invoice!")).

(** The action returns a message, or nothing ([undefined]). *)
Definition authenticate (prevState : option string) (formData : FormData)
    : Action (option string) :=
  tryCatch
    (signIn "credentials" formData ;;
     ret None)
    (fun error =>
       match error with
       | AuthError type _ =>
           if String.eqb type "CredentialsSignin"
           then ret (Some "Invalid credentials.")
           else ret (Some "Something went wrong.")
       | _ => throw error
       end).

(** ** The search box *)

Definition URLSearchParams := list (string * string).

Module URLSearchParams.

(** [new URLSearchParams(init)]: a copy of the pairs of [init]. *)
Definition new (init : URLSearchParams) : URLSearchParams := init.

Fixpoint get (params : URLSearchParams) (name : string) : option string :=
  match params with
  | [] => None
  | (k, v) :: rest => if String.eqb k name then Some v else get rest name
  end.

Definition getAll (params : URLSearchParams) (name : string) : list string :=
  List.map snd (List.filter (fun kv => String.eqb (fst kv) name) params).

(** [params.delete(name)] removes every pair of that name. *)
Definition delete (params : URLSearchParams) (name : string) : URLSearchParams :=
  List.filter (fun kv => negb (String.eqb (fst kv) name)) params.

(** [params.set(name, value)]: the first pair of that name takes the value
    and the others are removed; with no such pair, one is appended. *)
Fixpoint set (params : URLSearchParams) (name value : string) : URLSearchParams :=
  match params with
  | [] => [(name, value)]
  | (k, v) :: rest =>
      if String.eqb k name then (k, value) :: delete rest name
      else (k, v) :: set rest name value
  end.

Definition hexDigit (n : N) : ascii :=
  ascii_of_N (if (n <? 10)%N then 48 + n else 55 + n)%N.

(** The application/x-www-form-urlencoded byte serializer. *)
Definition encodeByte (c : ascii) : string :=
  let n := N_of_ascii c in
  let unreserved :=
    ((48 <=? n) && (n <=? 57) || (65 <=? n) && (n <=? 90) || (97 <=? n) && (n <=? 122)
     || (n =? 42) || (n =? 45) || (n =? 46) || (n =? 95))%N in
  if (n =? 32)%N then "+"
  else if unreserved then String c EmptyString
  else String "%"%char (String (hexDigit (n / 16)) (String (hexDigit (n mod 16)) EmptyString)).

Fixpoint encode (s : string) : string :=
  match s with
  | EmptyString => EmptyString
  | String c r => encodeByte c +:+ encode r
  end.

(** [params.toString()] *)
Fixpoint toString (params : URLSearchParams) : string :=
  match params with
  | [] => ""
  | (k, v) :: rest =>
      let pair := encode k +:+ "=" +:+ encode v in
      match rest with
      | [] => pair
      | _ => pair +:+ "&" +:+ toString rest
      end
  end.

(** The application/x-www-form-urlencoded parser, by which the query string
    of a URL is read back into pairs ([new URLSearchParams(string)]); the
    strings are the UTF-8 bytes. *)
Definition hexValue (c : ascii) : option N :=
  let n := N_of_ascii c in
  if ((48 <=? n) && (n <=? 57))%N then Some (n - 48)%N
  else if ((65 <=? n) && (n <=? 70))%N then Some (n - 55)%N
  else if ((97 <=? n) && (n <=? 102))%N then Some (n - 87)%N
  else None.

(** [+] is a space, [%XY] is the byte XY, anything else is itself. *)
Fixpoint decode (s : string) : string :=
  match s with
  | EmptyString => EmptyString
  | String c r =>
      if Ascii.eqb c "+" then String " " (decode r)
      else if Ascii.eqb c "%" then
        match r with
        | String h (String l r') =>
            match hexValue h, hexValue l with
            | Some x, Some y => String (ascii_of_N (16 * x + y)) (decode r')
            | _, _ => String c (decode r)
            end
        | _ => String c (decode r)
        end
      else String c (decode r)
  end.

(** The pieces of a string between the occurrences of a byte. *)
Fixpoint splitOn (sep : ascii) (s : string) : list string :=
  match s with
  | EmptyString => [EmptyString]
  | String c r =>
      if Ascii.eqb c sep then EmptyString :: splitOn sep r
      else match splitOn sep r with
           | piece :: pieces => String c piece :: pieces
           | [] => [String c EmptyString]
           end
  end.

(** A piece up to its first [=], and what follows it. *)
Fixpoint nameValue (s : string) : string * string :=
  match s with
  | EmptyString => (EmptyString, EmptyString)
  | String c r =>
      if Ascii.eqb c "=" then (EmptyString, r)
      else let '(n, v) := nameValue r in (String c n, v)
  end.

Definition parse (query : string) : URLSearchParams :=
  flat_map (fun piece =>
              match piece with
              | EmptyString => []
              | _ => let '(n, v) := nameValue piece in [(decode n, decode v)]
              end)
    (splitOn "&" query).

End URLSearchParams.

(** The session history, current entry first. *)
Module Router.

Definition push (href : string) (history : list string) : list string :=
  href :: history.

Definition replace (href : string) (history : list string) : list string :=
  href :: tail history.

End Router.

Module Search.

(** A string is truthy unless it is empty. *)
Definition truthy (s : string) : bool :=
  match s with
  | EmptyString => false
  | String _ _ => true
  end.

(** The callback that [useDebouncedCallback] runs once the input has been
    quiet for 300 ms; [searchParams] and [pathname] are what the hooks of
    the component returned. *)
Definition handleSearch (searchParams : URLSearchParams) (pathname : string)
    (term : string) (history : list string) : list string :=
  let params := URLSearchParams.new searchParams in
  let params := URLSearchParams.set params "page" "1" in
  let params := if truthy term then URLSearchParams.set params "query" term
                else URLSearchParams.delete params "query" in
  Router.replace (pathname +:+ "?" +:+ URLSearchParams.toString params) history.

End Search.

(** ** Vocabulary of the properties *)

(** The three rules of a submission, as conditions on what
    [formData.get] returned for the field. *)
Definition customerIdOffends (v : JsValue) : bool :=
  match v with
  | JsString _ => false
  | _ => true
  end.

Definition amountOffends (v : JsValue) : bool :=
  PrimFloat.is_nan (Number v) || PrimFloat.leb (Number v) 0%float.

Definition statusOffends (v : JsValue) : bool :=
  match v with
  | JsString s => negb (String.eqb s "pending" || String.eqb s "paid")
  | _ => true
  end.

(** The messages of the issues whose path starts with the field [k]. *)
Definition headIs (k : string) (i : z.ZodIssue) : bool :=
  match z.path i with
  | k' :: _ => String.eqb k' k
  | [] => false
  end.

Definition messagesAt (k : string) (iss : list z.ZodIssue) : list string :=
  List.map z.message (List.filter (headIs k) iss).

(** The calls an action made: what it appended to the log. *)
Definition appended (w w' : World) (events : list Event) : Prop :=
  log w' = log w ++ events.

(** A world in which storage accepts everything. *)
Definition calmWorld (rows : list Sql.Row) : World :=
  {| invoices := rows;
     sqlFault := fun _ _ => None;
     newId := fun rows => "invoice-" +:+ pretty (List.length rows);
     now := "2024-05-06T10:11:12.000Z";
     signInFault := fun _ _ => None;
     log := [] |}.

(** A world in which storage rejects everything. *)
Definition brokenWorld (rows : list Sql.Row) : World :=
  {| invoices := rows;
     sqlFault := fun _ _ => Some (OtherError "connection refused");
     newId := fun _ => "unused";
     now := "2024-05-06T10:11:12.000Z";
     signInFault := fun _ _ => Some (OtherError "fetch failed");
     log := [] |}.

Definition emptyState : State := {| errors := None; message := None |}.

Definition form (customerId amount status : string) : FormData :=
  [ ("customerId", EntryString customerId);
    ("amount", EntryString amount);
    ("status", EntryString status) ].

(** The three fields that [CreateInvoice] and [UpdateInvoice] keep. *)
Definition customerIdSchema : z.ZodType :=
  z.ZodString {| z.invalid_type_error := Some "Please select a customer";
                 z.required_error := None |}.

Definition amountSchema : z.ZodType :=
  z.coerce_number_gt 0%float "Please enter an amount greater than $0".

Definition statusSchema : z.ZodType :=
  z.ZodEnum ["pending"; "paid"]
    {| z.invalid_type_error := Some "Please select an invoice status";
       z.required_error := None |}.

(** The issues a submission raises, field by field, in schema order. *)
Definition submissionIssues (v1 v2 v3 : JsValue) : list z.ZodIssue :=
  z.issues (z.parse customerIdSchema ["customerId"] v1)
  ++ z.issues (z.parse amountSchema ["amount"] v2)
  ++ z.issues (z.parse statusSchema ["status"] v3).

(** The object a valid submission parses to. *)
Definition parsedSubmission (v1 v2 v3 : JsValue) : JsObject :=
  <["customerId" := v1]> (<["amount" := JsNumber (Number v2)]> (<["status" := v3]> ∅)).

(** The statements a valid submission leads to. *)
Definition amountInCentsOf (formData : FormData) : JsValue :=
  JsNumber (PrimFloat.mul (Number (FormData.get formData "amount")) 100%float).

Definition insertOf (formData : FormData) (w : World) : SqlStatement :=
  INSERT_INTO_invoices (FormData.get formData "customerId") (amountInCentsOf formData)
    (FormData.get formData "status") (JsString (beforeT (now w))).

Definition updateOf (id : string) (formData : FormData) : SqlStatement :=
  UPDATE_invoices (FormData.get formData "customerId") (amountInCentsOf formData)
    (FormData.get formData "status") id.

(** Some field of the submission breaks its rule. *)
Definition offends (formData : FormData) : bool :=
  customerIdOffends (FormData.get formData "customerId")
  || amountOffends (FormData.get formData "amount")
  || statusOffends (FormData.get formData "status").

(** The field errors of a rejected submission. *)
Definition fieldErrorsOf (formData : FormData) : gmap string (list string) :=
  z.fieldErrors (z.flatten (submissionIssues (FormData.get formData "customerId")
                              (FormData.get formData "amount")
                              (FormData.get formData "status"))).

(** The byte occurs in the string. *)
Fixpoint occurs (c : ascii) (s : string) : bool :=
  match s with
  | EmptyString => false
  | String a r => Ascii.eqb a c || occurs c r
  end.

(** The names of the three fields the two forms validate. *)
Definition isField (k : string) : bool :=
  String.eqb k "customerId" || String.eqb k "amount" || String.eqb k "status".

(** A row as validation lets it through: a string for the customer, a
    number for the amount, one of the two statuses, a string for the date. *)
Definition wellFormedRow (r : Sql.Row) : bool :=
  match Sql.customer_id r, Sql.amount r, Sql.status r, Sql.date r with
  | JsString _, JsNumber _, JsString s, JsString _ =>
      String.eqb s "pending" || String.eqb s "paid"
  | _, _, _, _ => false
  end.

(** Every byte of the string passes the test. *)
Fixpoint allBytes (p : ascii -> bool) (s : string) : bool :=
  match s with
  | EmptyString => true
  | String c r => p c && allBytes p r
  end.

(** The bytes a serialized query string is made of: letters, digits,
    [*], [-], [.], [_], and [+], [%], [&], [=]. *)
Definition queryByte (c : ascii) : bool :=
  let n := N_of_ascii c in
  ((48 <=? n) && (n <=? 57) || (65 <=? n) && (n <=? 90) || (97 <=? n) && (n <=? 122)
   || (n =? 42) || (n =? 45) || (n =? 46) || (n =? 95)
   || (n =? 43) || (n =? 37) || (n =? 38) || (n =? 61))%N.

(** The parameters [handleSearch] serializes, from those it started with. *)
Definition searchParamsAfter (searchParams : URLSearchParams) (term : string)
    : URLSearchParams :=
  let params := URLSearchParams.set (URLSearchParams.new searchParams) "page" "1" in
  if Search.truthy term then URLSearchParams.set params "query" term
  else URLSearchParams.delete params "query".

(** The calls made between two worlds: what the log gained. *)
Definition callsOf (w w' : World) : list Event :=
  drop (List.length (log w)) (log w').

(** The amounts bound into the INSERT and UPDATE statements among some
    calls, whether storage accepted the statement or not. *)
Fixpoint boundAmounts (events : list Event) : list JsValue :=
  match events with
  | [] => []
  | Sql (INSERT_INTO_invoices _ amount _ _) _ :: rest => amount :: boundAmounts rest
  | Sql (UPDATE_invoices _ amount _ _) _ :: rest => amount :: boundAmounts rest
  | _ :: rest => boundAmounts rest
  end.

(** [Number.isInteger]: a finite number with no fractional part. *)
Definition Number_isInteger (n : float) : bool :=
  match Prim2SF n with
  | S754_zero _ => true
  | S754_finite _ m e => (0 <=? e) || (Z.pos m mod 2 ^ (- e) =? 0)
  | _ => false
  end.

(** Two-decimal amounts, each with the binary64 number that multiplying it
    by 100 gives: 110.00000000000001, 1998.9999999999998 and
    434.99999999999994. *)
Definition unevenAmounts : list (string * float) :=
  [ ("1.10", 0x1.b800000000001p+6%float);
    ("19.99", 0x1.f3bffffffffffp+10%float);
    ("4.35", 0x1.b2fffffffffffp+8%float) ].

(** * Properties *)

Arguments JsNumber.StringToNumber : simpl never.

(** ** Zod *)

Lemma flatten_lookup (iss : list z.ZodIssue) (k : string) :
  z.fieldErrors (z.flatten iss) !! k
  = match messagesAt k iss with
    | [] => None
    | ms => Some ms
    end.
Proof.
  induction iss as [|i rest IH]; [reflexivity|].
  unfold messagesAt in *. simpl. unfold headIs at 1.
  destruct (z.path i) as [|k' p]; simpl; [exact IH|].
  destruct (String.eqb_spec k' k) as [->|Hne].
  - rewrite lookup_insert_eq, IH. simpl.
    destruct (List.map z.message (List.filter (headIs k) rest)); reflexivity.
  - rewrite lookup_insert_ne by exact Hne. exact IH.
Qed.

Lemma messagesAt_app (k : string) (a b : list z.ZodIssue) :
  messagesAt k (a ++ b) = messagesAt k a ++ messagesAt k b.
Proof. unfold messagesAt. rewrite List.filter_app, List.map_app. reflexivity. Qed.

Lemma messagesAt_here (k : string) (iss : list z.ZodIssue) :
  Forall (fun i => z.path i = [k]) iss ->
  messagesAt k iss = List.map z.message iss.
Proof.
  unfold messagesAt. induction 1 as [|i rest Hi _ IH]; [reflexivity|].
  simpl. unfold headIs at 1. rewrite Hi, String.eqb_refl. simpl. f_equal. exact IH.
Qed.

Lemma messagesAt_elsewhere (k k' : string) (iss : list z.ZodIssue) :
  k' <> k ->
  Forall (fun i => z.path i = [k']) iss ->
  messagesAt k iss = [].
Proof.
  intros Hne. unfold messagesAt. induction 1 as [|i rest Hi _ IH]; [reflexivity|].
  simpl. unfold headIs at 1. rewrite Hi.
  destruct (String.eqb_spec k' k) as [Heq|_]; [contradiction|exact IH].
Qed.

Lemma runChecks_path (p : list string) (n : float) (checks : list z.ZodNumberCheck) :
  Forall (fun i => z.path i = p) (z.runChecks p n checks).2.
Proof.
  induction checks as [|c rest IH]; simpl; [constructor|].
  destruct (z.runChecks p n rest) as [st iss]. simpl in IH.
  destruct (if z.inclusive c then _ else _); simpl; [constructor; [reflexivity|exact IH]|exact IH].
Qed.

Lemma runChecks_valid (p : list string) (n : float) (checks : list z.ZodNumberCheck) :
  let r := z.runChecks p n checks in
  (r.1 = z.valid /\ r.2 = []) \/ (r.1 = z.dirty /\ r.2 <> []).
Proof.
  induction checks as [|c rest IH]; simpl; [left; split; reflexivity|].
  destruct (z.runChecks p n rest) as [st iss]. simpl in IH.
  destruct (if z.inclusive c then _ else _); simpl; [right; split; [reflexivity|discriminate]|exact IH].
Qed.

(** Every issue of a field is filed under the path it was parsed at. *)
Lemma parse_path (schema : z.ZodType) (p : list string) (data : JsValue) :
  Forall (fun i => z.path i = p) (z.issues (z.parse schema p data)).
Proof.
  assert (Hinv : forall i, z.path i = p -> Forall (fun i => z.path i = p) (z.issues (z.INVALID i)))
    by (intros i Hi; simpl; repeat constructor; exact Hi).
  destruct schema as [params|coerce checks|values params]; simpl.
  - destruct data; simpl; repeat constructor.
  - destruct coerce.
    + destruct (PrimFloat.is_nan (Number data)); [apply Hinv; reflexivity|].
      pose proof (runChecks_path p (Number data) checks) as H.
      destruct (z.runChecks p (Number data) checks); exact H.
    + destruct data; try (apply Hinv; reflexivity).
      destruct (PrimFloat.is_nan n); [apply Hinv; reflexivity|].
      pose proof (runChecks_path p n checks) as H.
      destruct (z.runChecks p n checks); exact H.
  - destruct data; try (apply Hinv; reflexivity).
    destruct (existsb _ _); [constructor|apply Hinv; reflexivity].
Qed.

(** A field parses as valid exactly when it raised no issue. *)
Lemma parse_valid_iff (schema : z.ZodType) (p : list string) (data : JsValue) :
  z.status (z.parse schema p data) = z.valid <-> z.issues (z.parse schema p data) = [].
Proof.
  assert (Hchk : forall n checks,
    let '(st, iss) := z.runChecks p n checks in st = z.valid <-> iss = []).
  { intros n checks. pose proof (runChecks_valid p n checks) as H.
    destruct (z.runChecks p n checks) as [st iss]. simpl in H.
    destruct H as [[-> ->]|[-> H]]; split; intros; try reflexivity; try discriminate; contradiction. }
  destruct schema as [params|coerce checks|values params]; simpl.
  - destruct data; simpl; split; intros; try reflexivity; discriminate.
  - destruct coerce.
    + destruct (PrimFloat.is_nan (Number data)); [simpl; split; discriminate|].
      specialize (Hchk (Number data) checks).
      destruct (z.runChecks p (Number data) checks); exact Hchk.
    + destruct data; try (simpl; split; discriminate).
      destruct (PrimFloat.is_nan n); [simpl; split; discriminate|].
      specialize (Hchk n checks). destruct (z.runChecks p n checks); exact Hchk.
  - destruct data; try (simpl; split; discriminate).
    destruct (existsb _ _); simpl; split; intros; try reflexivity; discriminate.
Qed.

(** An object parses as valid exactly when none of its fields raised an
    issue: a failure of [safeParse] always has something to report. *)
Lemma parseObject_valid_iff (schema : z.ZodObject) (data : JsObject) :
  (z.parseObject schema data).1.1 = z.valid <-> (z.parseObject schema data).2 = [].
Proof.
  induction schema as [|[key field] rest IH]; simpl; [split; reflexivity|].
  destruct (z.parseObject rest data) as [[st obj] iss]. simpl in *.
  pose proof (parse_valid_iff field [key] (prop data key)) as Hf.
  split.
  - intros H.
    assert (Hboth : z.status (z.parse field [key] (prop data key)) = z.valid /\ st = z.valid)
      by (destruct (z.status _), st; try discriminate; split; reflexivity).
    destruct Hboth as [H1 H2].
    apply Hf in H1. apply IH in H2. rewrite H1, H2. reflexivity.
  - intros H. apply app_eq_nil in H as [H1 H2].
    apply Hf in H1. apply IH in H2. rewrite H1, H2. reflexivity.
Qed.

Lemma safeParse_failure_nonempty (schema : z.ZodObject) (data : JsObject)
    (error : list z.ZodIssue) :
  z.safeParse schema data = z.failure error -> error <> [].
Proof.
  unfold z.safeParse. pose proof (parseObject_valid_iff schema data) as H.
  destruct (z.parseObject schema data) as [[st obj] iss]. simpl in H.
  destruct st; [discriminate| |]; intros [= <-] Hnil; apply H in Hnil; discriminate.
Qed.

(** ** The schema of the two invoice forms *)

Lemma CreateInvoice_shape :
  CreateInvoice
  = [ ("customerId", customerIdSchema); ("amount", amountSchema); ("status", statusSchema) ].
Proof. reflexivity. Qed.

Lemma UpdateInvoice_shape : UpdateInvoice = CreateInvoice.
Proof. reflexivity. Qed.

Lemma prop_customerId (v1 v2 v3 : JsValue) (o : JsObject) :
  prop (<["customerId" := v1]> (<["amount" := v2]> (<["status" := v3]> o))) "customerId" = v1.
Proof. unfold prop. rewrite lookup_insert_eq. reflexivity. Qed.

Lemma prop_amount (v1 v2 v3 : JsValue) (o : JsObject) :
  prop (<["customerId" := v1]> (<["amount" := v2]> (<["status" := v3]> o))) "amount" = v2.
Proof.
  unfold prop. rewrite lookup_insert_ne by discriminate.
  rewrite lookup_insert_eq. reflexivity.
Qed.

Lemma prop_status (v1 v2 v3 : JsValue) (o : JsObject) :
  prop (<["customerId" := v1]> (<["amount" := v2]> (<["status" := v3]> o))) "status" = v3.
Proof.
  unfold prop. do 2 (rewrite lookup_insert_ne by discriminate).
  rewrite lookup_insert_eq. reflexivity.
Qed.

(** What [safeParse] makes of the object literal of the actions: a failure
    with the issues of all three fields as soon as one field offends, the
    parsed object otherwise. *)
Lemma safeParse_submission (v1 v2 v3 : JsValue) :
  z.safeParse CreateInvoice {[ "customerId" := v1; "amount" := v2; "status" := v3 ]}
  = if customerIdOffends v1 || amountOffends v2 || statusOffends v3
    then z.failure (submissionIssues v1 v2 v3)
    else z.success (parsedSubmission v1 v2 v3).
Proof.
  rewrite CreateInvoice_shape. unfold z.safeParse, z.parseObject.
  change ({[ "customerId" := v1; "amount" := v2; "status" := v3 ]} : JsObject)
    with (<["customerId" := v1]> (<["amount" := v2]> (<["status" := v3]> (∅ : JsObject)))).
  rewrite prop_customerId, prop_amount, prop_status.
  unfold submissionIssues, parsedSubmission, amountOffends.
  rewrite !app_nil_r.
  unfold amountSchema, z.coerce_number_gt, z.parse at 2 5.
  unfold z.runChecks, z.inclusive, z.min_value.
  destruct (PrimFloat.is_nan (Number v2)), (PrimFloat.leb (Number v2) 0);
    destruct v1; simpl;
    destruct v3; simpl; try reflexivity;
    destruct (String.eqb _ "pending"), (String.eqb _ "paid"); reflexivity.
Qed.

(** ** How the two invoice actions run *)

Lemma createInvoice_invalid (prevState : State) (formData : FormData) (w : World) :
  offends formData = true ->
  createInvoice prevState formData w
  = (Return {| errors := Some (fieldErrorsOf formData);
               message := Some "Missing fields. Failed to create invoice." |}, w).
Proof.
  intros H. unfold createInvoice, offends in *.
  rewrite safeParse_submission, H. reflexivity.
Qed.

Lemma updateInvoice_invalid (id : string) (prevState : State) (formData : FormData)
    (w : World) :
  offends formData = true ->
  updateInvoice id prevState formData w
  = (Return {| errors := Some (fieldErrorsOf formData);
               message := Some "Missing fields or invalid amount. Failed to update invoice." |}, w).
Proof.
  intros H. unfold updateInvoice, offends in *.
  rewrite UpdateInvoice_shape, safeParse_submission, H. reflexivity.
Qed.

Lemma createInvoice_valid (prevState : State) (formData : FormData) (w : World) :
  offends formData = false ->
  createInvoice prevState formData w
  = match sqlFault w (insertOf formData w) (invoices w) with
    | Some _ =>
        (Return {| errors := None;
                   message := Some "Database error: Failed to create invoice." |},
         logged (Sql (insertOf formData w) false) w)
    | None =>
        (Throw (NEXT_REDIRECT "/dashboard/invoices"),
         logged (Redirect "/dashboard/invoices")
           (logged (RevalidatePath "/dashboard/invoices")
              (logged (Sql (insertOf formData w) true)
                 (withInvoices
                    (Storage.exec (newId w) (insertOf formData w) (invoices w)) w))))
    end.
Proof.
  intros H. unfold createInvoice, offends in *.
  rewrite safeParse_submission, H. unfold parsedSubmission.
  rewrite prop_customerId, prop_amount, prop_status.
  unfold bind, tryCatch, toISOString_now, sql, ret, insertOf, amountInCentsOf, js_mul.
  simpl Number.
  destruct (sqlFault w _ (invoices w)); reflexivity.
Qed.

Lemma updateInvoice_valid (id : string) (prevState : State) (formData : FormData)
    (w : World) :
  offends formData = false ->
  updateInvoice id prevState formData w
  = match sqlFault w (updateOf id formData) (invoices w) with
    | Some _ =>
        (Return {| errors := None;
                   message := Some "Database error: Failed to create invoice." |},
         logged (Sql (updateOf id formData) false) w)
    | None =>
        (Throw (NEXT_REDIRECT "/dashboard/invoices"),
         logged (Redirect "/dashboard/invoices")
           (logged (RevalidatePath "/dashboard/invoices")
              (logged (Sql (updateOf id formData) true)
                 (withInvoices
                    (Storage.exec (newId w) (updateOf id formData) (invoices w)) w))))
    end.
Proof.
  intros H. unfold updateInvoice, offends in *.
  rewrite UpdateInvoice_shape, safeParse_submission, H. unfold parsedSubmission.
  rewrite prop_customerId, prop_amount, prop_status.
  unfold bind, tryCatch, sql, ret, updateOf, amountInCentsOf, js_mul.
  simpl Number.
  destruct (sqlFault w _ (invoices w)); reflexivity.
Qed.

(** ** The field errors of a rejected submission *)

Ltac other_field k :=
  rewrite (messagesAt_elsewhere _ k) by (first [discriminate | apply parse_path]).

Lemma errors_at_customerId (v1 v2 v3 : JsValue) :
  z.fieldErrors (z.flatten (submissionIssues v1 v2 v3)) !! "customerId"
  = match List.map z.message (z.issues (z.parse customerIdSchema ["customerId"] v1)) with
    | [] => None
    | ms => Some ms
    end.
Proof.
  rewrite flatten_lookup. unfold submissionIssues. rewrite !messagesAt_app.
  rewrite (messagesAt_here _ (z.issues (z.parse customerIdSchema _ _))) by apply parse_path.
  other_field "amount". other_field "status". rewrite !app_nil_r. reflexivity.
Qed.

Lemma errors_at_amount (v1 v2 v3 : JsValue) :
  z.fieldErrors (z.flatten (submissionIssues v1 v2 v3)) !! "amount"
  = match List.map z.message (z.issues (z.parse amountSchema ["amount"] v2)) with
    | [] => None
    | ms => Some ms
    end.
Proof.
  rewrite flatten_lookup. unfold submissionIssues. rewrite !messagesAt_app.
  rewrite (messagesAt_here _ (z.issues (z.parse amountSchema _ _))) by apply parse_path.
  other_field "customerId". other_field "status". rewrite !app_nil_r. reflexivity.
Qed.

Lemma errors_at_status (v1 v2 v3 : JsValue) :
  z.fieldErrors (z.flatten (submissionIssues v1 v2 v3)) !! "status"
  = match List.map z.message (z.issues (z.parse statusSchema ["status"] v3)) with
    | [] => None
    | ms => Some ms
    end.
Proof.
  rewrite flatten_lookup. unfold submissionIssues. rewrite !messagesAt_app.
  rewrite (messagesAt_here _ (z.issues (z.parse statusSchema _ _))) by apply parse_path.
  other_field "customerId". other_field "amount". reflexivity.
Qed.

Lemma customerId_messages (p : list string) (v : JsValue) :
  List.map z.message (z.issues (z.parse customerIdSchema p v))
  = match v with
    | JsString _ => []
    | JsUndefined => ["Required"]
    | _ => ["Please select a customer"]
    end.
Proof. destruct v; reflexivity. Qed.

Lemma amount_messages (p : list string) (v : JsValue) :
  List.map z.message (z.issues (z.parse amountSchema p v))
  = if PrimFloat.is_nan (Number v) then ["Expected number, received nan"]
    else if PrimFloat.leb (Number v) 0 then ["Please enter an amount greater than $0"]
    else [].
Proof.
  unfold amountSchema, z.coerce_number_gt, z.parse, z.invalidTypeDefault, z.getParsedType.
  destruct (PrimFloat.is_nan (Number v)) eqn:Hnan; [reflexivity|].
  simpl. destruct (PrimFloat.leb (Number v) 0); reflexivity.
Qed.

Lemma status_messages (p : list string) (v : JsValue) :
  List.map z.message (z.issues (z.parse statusSchema p v))
  = match v with
    | JsString s =>
        if String.eqb s "pending" || String.eqb s "paid" then []
        else ["Invalid enum value. Expected 'pending' | 'paid', received '" +:+ s +:+ "'"]
    | JsUndefined => ["Required"]
    | _ => ["Please select an invoice status"]
    end.
Proof.
  destruct v; try reflexivity. simpl.
  destruct (String.eqb s "pending"), (String.eqb s "paid"); reflexivity.
Qed.

(** A number that compares below or equal to another is not [NaN]. *)
Lemma SFcompare_self (a b : spec_float) (c : comparison) :
  SFcompare a b = Some c -> SFcompare a a = Some Eq.
Proof.
  destruct a as [s|s| |s m e]; simpl.
  - reflexivity.
  - destruct s; reflexivity.
  - discriminate.
  - intros _. rewrite Z.compare_refl, Pos.compare_cont_refl. destruct s; reflexivity.
Qed.

Lemma leb_not_nan (n m : float) : PrimFloat.leb n m = true -> PrimFloat.is_nan n = false.
Proof.
  unfold PrimFloat.is_nan. rewrite FloatAxioms.leb_spec, FloatAxioms.eqb_spec. unfold SFleb, SFeqb.
  destruct (SFcompare (Prim2SF n) (Prim2SF m)) eqn:E; [|discriminate].
  intros _. rewrite (SFcompare_self _ _ _ E). reflexivity.
Qed.

(** ** Validation *)

(** C1. A create or update submission in which some field breaks its rule is
    answered with an outcome that carries field errors, the world untouched,
    and the error map has an entry for each offending field at once (and for
    no other field). *)
Theorem invalid_submission_reports_every_field
    (id : string) (prevState : State) (formData : FormData) (w : World) :
  offends formData = true ->
  exists (errs : gmap string (list string)) (m m' : option string),
    createInvoice prevState formData w = (Return {| errors := Some errs; message := m |}, w)
    /\ updateInvoice id prevState formData w
       = (Return {| errors := Some errs; message := m' |}, w)
    /\ (is_Some (errs !! "customerId")
        <-> customerIdOffends (FormData.get formData "customerId") = true)
    /\ (is_Some (errs !! "amount")
        <-> amountOffends (FormData.get formData "amount") = true)
    /\ (is_Some (errs !! "status")
        <-> statusOffends (FormData.get formData "status") = true).
Proof.
  intros H. eexists _, _, _.
  split; [apply createInvoice_invalid; exact H|].
  split; [apply updateInvoice_invalid; exact H|].
  unfold fieldErrorsOf.
  rewrite errors_at_customerId, errors_at_amount, errors_at_status.
  rewrite customerId_messages, amount_messages, status_messages.
  unfold amountOffends.
  repeat split; intros Hx.
  - destruct (FormData.get formData "customerId"); try reflexivity.
    destruct Hx as [? Hx]; discriminate.
  - destruct (FormData.get formData "customerId"); try discriminate; eexists; reflexivity.
  - destruct (PrimFloat.is_nan _); [reflexivity|].
    destruct (PrimFloat.leb _ _); [reflexivity|].
    destruct Hx as [? Hx]; discriminate.
  - destruct (PrimFloat.is_nan _); [eexists; reflexivity|].
    destruct (PrimFloat.leb _ _); [eexists; reflexivity|discriminate].
  - destruct (FormData.get formData "status"); try reflexivity. simpl.
    destruct (String.eqb s "pending" || String.eqb s "paid"); [|reflexivity].
    destruct Hx as [? Hx]; discriminate.
  - destruct (FormData.get formData "status"); try (eexists; reflexivity).
    simpl in Hx. destruct (String.eqb s "pending" || String.eqb s "paid");
      [discriminate|eexists; reflexivity].
Qed.

Lemma invalid_submission_reports_every_field_witness :
  let formData := [("amount", EntryString "-3"); ("status", EntryString "draft")] in
  offends formData = true
  /\ exists (errs : gmap string (list string)) (m m' : option string),
       createInvoice emptyState formData (calmWorld [])
       = (Return {| errors := Some errs; message := m |}, calmWorld [])
       /\ updateInvoice "invoice-0" emptyState formData (calmWorld [])
          = (Return {| errors := Some errs; message := m' |}, calmWorld [])
       /\ (is_Some (errs !! "customerId")
           <-> customerIdOffends (FormData.get formData "customerId") = true)
       /\ (is_Some (errs !! "amount")
           <-> amountOffends (FormData.get formData "amount") = true)
       /\ (is_Some (errs !! "status")
           <-> statusOffends (FormData.get formData "status") = true).
Proof.
  split; [reflexivity|].
  apply (invalid_submission_reports_every_field "invoice-0" emptyState
           [("amount", EntryString "-3"); ("status", EntryString "draft")] (calmWorld [])).
  reflexivity.
Defined.

(** C4. A create or update submission whose amount coerces to a number that
    is less than or equal to zero is rejected whatever the other fields
    hold, and the error list of the amount field is the message of the
    [gt(0)] check. *)
Theorem nonpositive_amount_rejected
    (id : string) (prevState : State) (formData : FormData) (w : World) :
  PrimFloat.leb (Number (FormData.get formData "amount")) 0%float = true ->
  exists (errs : gmap string (list string)) (m m' : option string),
    createInvoice prevState formData w = (Return {| errors := Some errs; message := m |}, w)
    /\ updateInvoice id prevState formData w
       = (Return {| errors := Some errs; message := m' |}, w)
    /\ errs !! "amount" = Some ["Please enter an amount greater than $0"].
Proof.
  intros Hle.
  assert (Hoff : offends formData = true).
  { unfold offends, amountOffends. rewrite Hle, !orb_true_r. reflexivity. }
  eexists _, _, _.
  split; [apply createInvoice_invalid; exact Hoff|].
  split; [apply updateInvoice_invalid; exact Hoff|].
  unfold fieldErrorsOf. rewrite errors_at_amount, amount_messages.
  rewrite (leb_not_nan _ _ Hle), Hle. reflexivity.
Qed.

Lemma nonpositive_amount_rejected_witness :
  let formData := form "customer-1" "0" "paid" in
  PrimFloat.leb (Number (FormData.get formData "amount")) 0%float = true
  /\ exists (errs : gmap string (list string)) (m m' : option string),
       createInvoice emptyState formData (calmWorld [])
       = (Return {| errors := Some errs; message := m |}, calmWorld [])
       /\ updateInvoice "invoice-0" emptyState formData (calmWorld [])
          = (Return {| errors := Some errs; message := m' |}, calmWorld [])
       /\ errs !! "amount" = Some ["Please enter an amount greater than $0"].
Proof.
  split; [reflexivity|].
  apply (nonpositive_amount_rejected "invoice-0" emptyState
           (form "customer-1" "0" "paid") (calmWorld [])).
  reflexivity.
Defined.

(** C8, as the code has it. On validation failure the top-level message is
    'Missing fields. Failed to create invoice.' for create and
    'Missing fields or invalid amount. Failed to update invoice.' for update. *)
Theorem validation_failure_messages
    (id : string) (prevState : State) (formData : FormData) (w : World) :
  offends formData = true ->
  exists errs : gmap string (list string),
    createInvoice prevState formData w
    = (Return {| errors := Some errs;
                 message := Some "Missing fields. Failed to create invoice." |}, w)
    /\ updateInvoice id prevState formData w
       = (Return {| errors := Some errs;
                    message := Some "Missing fields or invalid amount. Failed to update invoice." |},
          w).
Proof.
  intros H. exists (fieldErrorsOf formData).
  split; [apply createInvoice_invalid|apply updateInvoice_invalid]; exact H.
Qed.

Lemma validation_failure_messages_witness :
  offends [] = true
  /\ exists errs : gmap string (list string),
       createInvoice emptyState [] (calmWorld [])
       = (Return {| errors := Some errs;
                    message := Some "Missing fields. Failed to create invoice." |},
          calmWorld [])
       /\ updateInvoice "invoice-0" emptyState [] (calmWorld [])
          = (Return {| errors := Some errs;
                       message := Some "Missing fields or invalid amount. Failed to update invoice." |},
             calmWorld []).
Proof.
  split; [reflexivity|].
  apply (validation_failure_messages "invoice-0" emptyState [] (calmWorld [])).
  reflexivity.
Defined.

(** C8 as stated fails for update: an empty update submission is answered
    with a message that is not 'Missing fields. Failed to update invoice.' *)
Lemma update_validation_message_differs :
  exists (st : State) (w' : World),
    updateInvoice "invoice-0" emptyState [] (calmWorld []) = (Return st, w')
    /\ message st = Some "Missing fields or invalid amount. Failed to update invoice."
    /\ message st <> Some "Missing fields. Failed to update invoice.".
Proof.
  eexists _, _. split; [apply updateInvoice_invalid; reflexivity|].
  split; [reflexivity|discriminate].
Qed.

(** ** Persistence *)

(** C9. When storage rejects the statement of a valid update, the outcome
    carries 'Database error: Failed to create invoice.', the very message of
    a create whose insert is rejected. *)
Theorem update_persistence_failure_message
    (id : string) (prevState : State) (formData : FormData) (w wc : World)
    (e ec : JsError) :
  offends formData = false ->
  sqlFault w (updateOf id formData) (invoices w) = Some e ->
  sqlFault wc (insertOf formData wc) (invoices wc) = Some ec ->
  (updateInvoice id prevState formData w).1
  = Return {| errors := None; message := Some "Database error: Failed to create invoice." |}
  /\ (createInvoice prevState formData wc).1 = (updateInvoice id prevState formData w).1.
Proof.
  intros Hv Hu Hc.
  rewrite (updateInvoice_valid _ _ _ _ Hv), Hu.
  rewrite (createInvoice_valid _ _ _ Hv), Hc.
  split; reflexivity.
Qed.

Lemma update_persistence_failure_message_witness :
  let formData := form "customer-1" "12.34" "paid" in
  let w := brokenWorld [] in
  offends formData = false
  /\ sqlFault w (updateOf "invoice-0" formData) (invoices w)
     = Some (OtherError "connection refused")
  /\ sqlFault w (insertOf formData w) (invoices w) = Some (OtherError "connection refused")
  /\ (updateInvoice "invoice-0" emptyState formData w).1
     = Return {| errors := None; message := Some "Database error: Failed to create invoice." |}
  /\ (createInvoice emptyState formData w).1
     = (updateInvoice "invoice-0" emptyState formData w).1.
Proof.
  intros formData w. do 3 (split; [reflexivity|]).
  apply (update_persistence_failure_message "invoice-0" emptyState formData w w
           (OtherError "connection refused") (OtherError "connection refused"));
    reflexivity.
Defined.

Lemma callsOf_appended (w w' : World) (events : list Event) :
  appended w w' events -> callsOf w w' = events.
Proof.
  unfold appended, callsOf. intros ->.
  induction (log w) as [|e l IH]; [reflexivity|exact IH].
Qed.

(** A valid submission binds one amount, in the one statement it leads to:
    the binary64 product of the coerced amount and 100. That is so whether
    storage then accepts the statement or rejects it. *)
Lemma bound_amount_is_product
    (id : string) (prevState : State) (formData : FormData) (w : World) :
  offends formData = false ->
  let cents := JsNumber (PrimFloat.mul (Number (FormData.get formData "amount")) 100%float) in
  boundAmounts (callsOf w (createInvoice prevState formData w).2) = [cents]
  /\ boundAmounts (callsOf w (updateInvoice id prevState formData w).2) = [cents].
Proof.
  intros Hv cents. split.
  - rewrite (createInvoice_valid _ _ _ Hv).
    destruct (sqlFault w (insertOf formData w) (invoices w)).
    + rewrite (callsOf_appended _ _ [Sql (insertOf formData w) false]); reflexivity.
    + rewrite (callsOf_appended _ _ [ Sql (insertOf formData w) true;
                                      RevalidatePath "/dashboard/invoices";
                                      Redirect "/dashboard/invoices" ]);
        [reflexivity|].
      unfold appended. simpl. rewrite <- !app_assoc. reflexivity.
  - rewrite (updateInvoice_valid _ _ _ _ Hv).
    destruct (sqlFault w (updateOf id formData) (invoices w)).
    + rewrite (callsOf_appended _ _ [Sql (updateOf id formData) false]); reflexivity.
    + rewrite (callsOf_appended _ _ [ Sql (updateOf id formData) true;
                                      RevalidatePath "/dashboard/invoices";
                                      Redirect "/dashboard/invoices" ]);
        [reflexivity|].
      unfold appended. simpl. rewrite <- !app_assoc. reflexivity.
Qed.

(** An amount of 12.34 is bound as exactly 1234, a whole number of cents. *)
Lemma amount_12_34_in_cents (id : string) (prevState : State) (w : World) :
  let formData := form "customer-1" "12.34" "paid" in
  boundAmounts (callsOf w (createInvoice prevState formData w).2) = [JsNumber 1234%float]
  /\ boundAmounts (callsOf w (updateInvoice id prevState formData w).2)
     = [JsNumber 1234%float]
  /\ Number_isInteger 1234%float = true.
Proof.
  intros formData.
  destruct (bound_amount_is_product id prevState formData w eq_refl) as [Hc Hu].
  repeat split; assumption.
Qed.

(** C3. The conversion to cents, [amount * 100], is not exact for every
    two-decimal amount. The submissions with amount 1.10, 19.99 and 4.35 are
    valid, and in every world, whether storage then accepts the statement or
    not, create and update bind into their statement 110.00000000000001,
    1998.9999999999998 and 434.99999999999994: the binary64 product, which
    is not a whole number of cents. *)
Theorem amountInCents_is_not_whole_cents (id : string) (prevState : State) (w : World) :
  Forall
    (fun '(amount, cents) =>
       let formData := form "customer-1" amount "paid" in
       offends formData = false
       /\ boundAmounts (callsOf w (createInvoice prevState formData w).2) = [JsNumber cents]
       /\ boundAmounts (callsOf w (updateInvoice id prevState formData w).2)
          = [JsNumber cents]
       /\ Number_isInteger cents = false)
    unevenAmounts.
Proof.
  assert (Hone : forall (amount : string) (cents : float),
            offends (form "customer-1" amount "paid") = false ->
            PrimFloat.mul (JsNumber.StringToNumber amount) 100%float = cents ->
            Number_isInteger cents = false ->
            let formData := form "customer-1" amount "paid" in
            offends formData = false
            /\ boundAmounts (callsOf w (createInvoice prevState formData w).2)
               = [JsNumber cents]
            /\ boundAmounts (callsOf w (updateInvoice id prevState formData w).2)
               = [JsNumber cents]
            /\ Number_isInteger cents = false).
  { intros amount cents Hv Hcents Hfrac formData.
    destruct (bound_amount_is_product id prevState formData w Hv) as [Hc Hu].
    simpl in Hc, Hu. rewrite Hcents in Hc, Hu.
    repeat split; assumption. }
  unfold unevenAmounts.
  repeat (apply List.Forall_cons; [apply Hone; reflexivity|]).
  apply List.Forall_nil.
Qed.

(** C2. What [createInvoice] does to its collaborators, case by case: a
    rejected submission makes no call; an insert that storage rejects is the
    only call, and the outcome is the database message; an accepted insert
    adds one row and is followed by one revalidation of the invoice list and
    then the redirect, in that order. *)
Theorem createInvoice_effect_order
    (prevState : State) (formData : FormData) (w : World) :
  let outcome := (createInvoice prevState formData w).1 in
  let w' := (createInvoice prevState formData w).2 in
  if offends formData
  then (exists st, outcome = Return st) /\ appended w w' [] /\ invoices w' = invoices w
  else match sqlFault w (insertOf formData w) (invoices w) with
       | Some _ =>
           outcome = Return {| errors := None;
                               message := Some "Database error: Failed to create invoice." |}
           /\ appended w w' [Sql (insertOf formData w) false]
           /\ invoices w' = invoices w
       | None =>
           outcome = Throw (NEXT_REDIRECT "/dashboard/invoices")
           /\ appended w w' [ Sql (insertOf formData w) true;
                              RevalidatePath "/dashboard/invoices";
                              Redirect "/dashboard/invoices" ]
           /\ exists row, invoices w' = invoices w ++ [row]
       end.
Proof.
  intros outcome w'. subst outcome w'. unfold appended.
  destruct (offends formData) eqn:Hv.
  - rewrite (createInvoice_invalid _ _ _ Hv). simpl.
    rewrite app_nil_r. repeat split. eexists; reflexivity.
  - rewrite (createInvoice_valid _ _ _ Hv).
    destruct (sqlFault w (insertOf formData w) (invoices w)); simpl.
    + repeat split.
    + rewrite <- !app_assoc. repeat split. eexists; reflexivity.
Qed.

(** The rows of a table after an update statement, next to the rows before. *)
Lemma exec_update_rows (gen : list Sql.Row -> string) (c a s : JsValue) (id : string)
    (rows : list Sql.Row) :
  Forall2
    (fun r r' =>
       Sql.id r' = Sql.id r /\ Sql.date r' = Sql.date r
       /\ if String.eqb (Sql.id r) id
          then Sql.customer_id r' = c /\ Sql.amount r' = a /\ Sql.status r' = s
          else r' = r)
    rows (Storage.exec gen (UPDATE_invoices c a s id) rows).
Proof.
  induction rows as [|r rows IH]; simpl; constructor; [|exact IH].
  destruct (String.eqb (Sql.id r) id); simpl; repeat split.
Qed.

(** Whatever happens, [updateInvoice] leaves the [id] and the [date] of
    every row as they were, and adds or removes no row. *)
Lemma updateInvoice_keeps_id_and_date
    (id : string) (prevState : State) (formData : FormData) (w : World) :
  Forall2 (fun r r' => Sql.id r' = Sql.id r /\ Sql.date r' = Sql.date r)
    (invoices w) (invoices (updateInvoice id prevState formData w).2).
Proof.
  assert (Hsame : forall rows : list Sql.Row,
            Forall2 (fun r r' => Sql.id r' = Sql.id r /\ Sql.date r' = Sql.date r) rows rows)
    by (induction rows; constructor; [split; reflexivity|assumption]).
  destruct (offends formData) eqn:Hv.
  - rewrite (updateInvoice_invalid _ _ _ _ Hv). apply Hsame.
  - rewrite (updateInvoice_valid _ _ _ _ Hv).
    destruct (sqlFault w (updateOf id formData) (invoices w)); simpl; [apply Hsame|].
    eapply Forall2_impl; [apply (exec_update_rows (newId w))|].
    intros r r' (Hid & Hdate & _). split; assumption.
Qed.

(** C6. A successful update keeps the table row for row: every row keeps its
    [id] and its [date]; a row whose [id] is the one given gets the submitted
    [customer_id], [amount] (in cents) and [status]; every other row is
    unchanged. *)
Theorem update_writes_three_columns_only
    (id : string) (prevState : State) (formData : FormData) (w : World) :
  offends formData = false ->
  sqlFault w (updateOf id formData) (invoices w) = None ->
  Forall2
    (fun r r' =>
       Sql.id r' = Sql.id r /\ Sql.date r' = Sql.date r
       /\ if String.eqb (Sql.id r) id
          then Sql.customer_id r' = FormData.get formData "customerId"
               /\ Sql.amount r'
                  = JsNumber (PrimFloat.mul (Number (FormData.get formData "amount")) 100%float)
               /\ Sql.status r' = FormData.get formData "status"
          else r' = r)
    (invoices w) (invoices (updateInvoice id prevState formData w).2).
Proof.
  intros Hv Hu. rewrite (updateInvoice_valid _ _ _ _ Hv), Hu.
  apply (exec_update_rows (newId w)).
Qed.

Lemma update_writes_three_columns_only_witness :
  let formData := form "customer-1" "12.34" "paid" in
  let row0 := {| Sql.id := "invoice-0"; Sql.customer_id := JsString "customer-2";
                 Sql.amount := JsNumber 500%float; Sql.status := JsString "pending";
                 Sql.date := JsString "2024-01-02" |} in
  let row1 := {| Sql.id := "invoice-1"; Sql.customer_id := JsString "customer-3";
                 Sql.amount := JsNumber 700%float; Sql.status := JsString "paid";
                 Sql.date := JsString "2024-02-03" |} in
  let w := calmWorld [row0; row1] in
  offends formData = false
  /\ sqlFault w (updateOf "invoice-1" formData) (invoices w) = None
  /\ Forall2
       (fun r r' =>
          Sql.id r' = Sql.id r /\ Sql.date r' = Sql.date r
          /\ if String.eqb (Sql.id r) "invoice-1"
             then Sql.customer_id r' = FormData.get formData "customerId"
                  /\ Sql.amount r'
                     = JsNumber (PrimFloat.mul (Number (FormData.get formData "amount"))
                                   100%float)
                  /\ Sql.status r' = FormData.get formData "status"
             else r' = r)
       (invoices w) (invoices (updateInvoice "invoice-1" emptyState formData w).2).
Proof.
  intros formData row0 row1 w. do 2 (split; [reflexivity|]).
  apply (update_writes_three_columns_only "invoice-1" emptyState formData w); reflexivity.
Defined.

(** ** Authentication *)

(** C5. [authenticate] calls [signIn] once and has four outcomes: nothing is
    returned when the collaborator succeeds, 'Invalid credentials.' when it
    throws an [AuthError] of type 'CredentialsSignin', 'Something went
    wrong.' for any other [AuthError], and any other error is thrown on as
    it came. *)
Theorem authenticate_outcomes
    (prevState : option string) (formData : FormData) (w : World) :
  let outcome := (authenticate prevState formData w).1 in
  let w' := (authenticate prevState formData w).2 in
  appended w w' [SignIn "credentials" formData]
  /\ match signInFault w "credentials" formData with
     | None => outcome = Return None
     | Some (AuthError type _) =>
         outcome = Return (Some (if decide (type = "CredentialsSignin")
                                 then "Invalid credentials."
                                 else "Something went wrong."))
     | Some e => outcome = Throw e
     end.
Proof.
  intros outcome w'. subst outcome w'.
  unfold authenticate, tryCatch, bind, signIn, appended.
  destruct (signInFault w "credentials" formData) as [[type m|url|m]|]; simpl;
    try (split; reflexivity).
  destruct (String.eqb_spec type "CredentialsSignin") as [->|Hne]; simpl.
  - split; reflexivity.
  - destruct (decide (type = "CredentialsSignin")); [contradiction|split; reflexivity].
Qed.

(** ** URLSearchParams *)

Lemma getAll_delete_same (params : URLSearchParams) (name : string) :
  URLSearchParams.getAll (URLSearchParams.delete params name) name = [].
Proof.
  unfold URLSearchParams.getAll, URLSearchParams.delete.
  induction params as [|[k v] rest IH]; simpl; [reflexivity|].
  destruct (String.eqb k name) eqn:E; simpl; [exact IH|].
  rewrite E. exact IH.
Qed.

Lemma getAll_set_same (params : URLSearchParams) (name value : string) :
  URLSearchParams.getAll (URLSearchParams.set params name value) name = [value].
Proof.
  induction params as [|[k v] rest IH]; simpl.
  - unfold URLSearchParams.getAll. simpl. rewrite String.eqb_refl. reflexivity.
  - destruct (String.eqb k name) eqn:E.
    + unfold URLSearchParams.getAll. simpl. rewrite E. simpl. f_equal.
      apply getAll_delete_same.
    + unfold URLSearchParams.getAll in *. simpl. rewrite E. exact IH.
Qed.

(** [get] is the first of [getAll]. *)
Lemma get_head_getAll (params : URLSearchParams) (name : string) :
  URLSearchParams.get params name = head (URLSearchParams.getAll params name).
Proof.
  unfold URLSearchParams.getAll.
  induction params as [|[k v] rest IH]; simpl; [reflexivity|].
  destruct (String.eqb k name); [reflexivity|exact IH].
Qed.

(** Pairs of another name are out of reach of [delete] and [set]: any
    selection of names that leaves [name] out sees the same pairs, in the
    same order, before and after. *)
Lemma filter_delete_other (keep : string -> bool) (params : URLSearchParams)
    (name : string) :
  keep name = false ->
  List.filter (fun kv => keep (fst kv)) (URLSearchParams.delete params name)
  = List.filter (fun kv => keep (fst kv)) params.
Proof.
  intros Hk. unfold URLSearchParams.delete.
  induction params as [|[k v] rest IH]; simpl; [reflexivity|].
  destruct (String.eqb_spec k name) as [->|Hne]; simpl.
  - rewrite Hk. exact IH.
  - rewrite IH. reflexivity.
Qed.

Lemma filter_set_other (keep : string -> bool) (params : URLSearchParams)
    (name value : string) :
  keep name = false ->
  List.filter (fun kv => keep (fst kv)) (URLSearchParams.set params name value)
  = List.filter (fun kv => keep (fst kv)) params.
Proof.
  intros Hk. induction params as [|[k v] rest IH]; simpl.
  - rewrite Hk. reflexivity.
  - destruct (String.eqb_spec k name) as [->|Hne]; simpl.
    + rewrite Hk. apply filter_delete_other. exact Hk.
    + rewrite IH. reflexivity.
Qed.

Lemma getAll_set_other (params : URLSearchParams) (name name' value : string) :
  name' <> name ->
  URLSearchParams.getAll (URLSearchParams.set params name value) name'
  = URLSearchParams.getAll params name'.
Proof.
  intros Hne. unfold URLSearchParams.getAll. f_equal.
  apply (filter_set_other (fun k => String.eqb k name')).
  apply String.eqb_neq. congruence.
Qed.

Lemma getAll_delete_other (params : URLSearchParams) (name name' : string) :
  name' <> name ->
  URLSearchParams.getAll (URLSearchParams.delete params name) name'
  = URLSearchParams.getAll params name'.
Proof.
  intros Hne. unfold URLSearchParams.getAll. f_equal.
  apply (filter_delete_other (fun k => String.eqb k name')).
  apply String.eqb_neq. congruence.
Qed.

(** *** Serializing and reading back *)

Ltac each_byte c := destruct c as [[] [] [] [] [] [] [] []].

Lemma decode_encodeByte (c : ascii) (rest : string) :
  URLSearchParams.decode (URLSearchParams.encodeByte c +:+ rest)
  = String c (URLSearchParams.decode rest).
Proof. each_byte c; reflexivity. Qed.

Lemma decode_encode (s : string) :
  URLSearchParams.decode (URLSearchParams.encode s) = s.
Proof.
  induction s as [|c r IH]; [reflexivity|].
  simpl. rewrite decode_encodeByte, IH. reflexivity.
Qed.

Lemma occurs_app (c : ascii) (a b : string) :
  occurs c (a +:+ b) = occurs c a || occurs c b.
Proof.
  induction a as [|x a IH]; [reflexivity|].
  simpl. rewrite IH. apply orb_assoc.
Qed.

(** Neither separator survives the encoding. *)
Lemma encode_no_amp (s : string) : occurs "&" (URLSearchParams.encode s) = false.
Proof.
  induction s as [|c r IH]; [reflexivity|].
  simpl. rewrite occurs_app, IH, orb_false_r. each_byte c; reflexivity.
Qed.

Lemma encode_no_eq (s : string) : occurs "=" (URLSearchParams.encode s) = false.
Proof.
  induction s as [|c r IH]; [reflexivity|].
  simpl. rewrite occurs_app, IH, orb_false_r. each_byte c; reflexivity.
Qed.

Lemma splitOn_clean (sep : ascii) (a : string) :
  occurs sep a = false -> URLSearchParams.splitOn sep a = [a].
Proof.
  induction a as [|x a IH]; [reflexivity|].
  simpl. intros H. apply orb_false_iff in H as [Hx Ha].
  rewrite Hx, (IH Ha). reflexivity.
Qed.

Lemma splitOn_app (sep : ascii) (a b : string) :
  occurs sep a = false ->
  URLSearchParams.splitOn sep (a +:+ String sep b) = a :: URLSearchParams.splitOn sep b.
Proof.
  induction a as [|x a IH]; simpl.
  - intros _. rewrite Ascii.eqb_refl. reflexivity.
  - intros H. apply orb_false_iff in H as [Hx Ha].
    rewrite Hx, (IH Ha). reflexivity.
Qed.

Lemma nameValue_app (a b : string) :
  occurs "=" a = false ->
  URLSearchParams.nameValue (a +:+ String "=" b) = (a, b).
Proof.
  induction a as [|x a IH]; simpl; [reflexivity|].
  intros H. apply orb_false_iff in H as [Hx Ha].
  rewrite Hx, (IH Ha). reflexivity.
Qed.

Lemma pair_no_amp (k v : string) :
  occurs "&" (URLSearchParams.encode k +:+ "=" +:+ URLSearchParams.encode v) = false.
Proof.
  rewrite occurs_app, encode_no_amp.
  change (occurs "&" ("=" +:+ URLSearchParams.encode v))
    with (occurs "&" (URLSearchParams.encode v)).
  apply encode_no_amp.
Qed.

(** A serialized pair is read back as the pair. *)
Lemma parse_pair (k v : string) :
  URLSearchParams.parse (URLSearchParams.encode k +:+ "=" +:+ URLSearchParams.encode v)
  = [(k, v)].
Proof.
  unfold URLSearchParams.parse.
  rewrite splitOn_clean by apply pair_no_amp.
  simpl flat_map. rewrite app_nil_r.
  change ("=" +:+ URLSearchParams.encode v) with (String "=" (URLSearchParams.encode v)).
  rewrite nameValue_app by apply encode_no_eq.
  rewrite !decode_encode.
  destruct (URLSearchParams.encode k); reflexivity.
Qed.

(** Reading back what [toString] wrote gives the pairs that were written. *)
Lemma parse_toString (params : URLSearchParams) :
  URLSearchParams.parse (URLSearchParams.toString params) = params.
Proof.
  induction params as [|[k v] rest IH]; [reflexivity|].
  destruct rest as [|p rest].
  - apply parse_pair.
  - change (URLSearchParams.toString ((k, v) :: p :: rest))
      with ((URLSearchParams.encode k +:+ "=" +:+ URLSearchParams.encode v)
            +:+ String "&" (URLSearchParams.toString (p :: rest))).
    unfold URLSearchParams.parse in *.
    rewrite splitOn_app by apply pair_no_amp.
    change (flat_map ?f (?x :: ?l)) with (f x ++ flat_map f l).
    rewrite IH.
    pose proof (parse_pair k v) as Hp. unfold URLSearchParams.parse in Hp.
    rewrite splitOn_clean in Hp by apply pair_no_amp.
    simpl flat_map in Hp. rewrite app_nil_r in Hp. rewrite Hp. reflexivity.
Qed.

(** ** The search box *)

(** C7. The handler replaces the current history entry by the same path
    followed by a query string which, read back, holds [page] once, with
    value '1', whatever it was before, and holds [query] once with the term
    when the term is not empty and not at all when it is. *)
Theorem handleSearch_resets_page_and_reflects_term
    (searchParams : URLSearchParams) (pathname term : string) (history : list string) :
  exists query : string,
    Search.handleSearch searchParams pathname term history
    = Router.replace (pathname +:+ "?" +:+ query) history
    /\ let params := URLSearchParams.parse query in
       URLSearchParams.getAll params "page" = ["1"]
       /\ URLSearchParams.get params "page" = Some "1"
       /\ URLSearchParams.getAll params "query" = (if decide (term = "") then [] else [term])
       /\ URLSearchParams.get params "query" = (if decide (term = "") then None else Some term).
Proof.
  unfold Search.handleSearch, URLSearchParams.new.
  eexists. split; [reflexivity|].
  rewrite parse_toString. cbv zeta.
  rewrite !get_head_getAll.
  destruct term as [|c term]; simpl Search.truthy; cbv iota.
  - rewrite getAll_delete_other by discriminate.
    rewrite getAll_set_same, getAll_delete_same. repeat split.
  - rewrite getAll_set_other by discriminate.
    rewrite !getAll_set_same. repeat split.
Qed.

(** C10. The query string of the replaced URL, read back, holds every pair
    whose name is neither [page] nor [query] exactly as the starting
    parameters did: same pairs, same order, same multiplicity. *)
Theorem handleSearch_keeps_other_params
    (searchParams : URLSearchParams) (pathname term : string) (history : list string) :
  let other (kv : string * string) :=
    negb (String.eqb (fst kv) "page") && negb (String.eqb (fst kv) "query") in
  exists query : string,
    Search.handleSearch searchParams pathname term history
    = Router.replace (pathname +:+ "?" +:+ query) history
    /\ List.filter other (URLSearchParams.parse query) = List.filter other searchParams.
Proof.
  intros other. unfold Search.handleSearch, URLSearchParams.new.
  eexists. split; [reflexivity|].
  rewrite parse_toString. subst other.
  set (keep := fun k : string => negb (String.eqb k "page") && negb (String.eqb k "query")).
  change (fun kv : string * string =>
            negb (String.eqb (fst kv) "page") && negb (String.eqb (fst kv) "query"))
    with (fun kv : string * string => keep (fst kv)).
  destruct (Search.truthy term).
  - rewrite !filter_set_other by reflexivity. reflexivity.
  - rewrite filter_delete_other, filter_set_other by reflexivity. reflexivity.
Qed.

(** From page 5 of a sorted list, searching for "lee" and then clearing the
    box. *)
Example handleSearch_from_page_5 :
  Search.handleSearch [("page", "5"); ("sort", "amount desc"); ("query", "le")]
    "/dashboard/invoices" "lee" ["/dashboard/invoices?page=5&sort=amount+desc&query=le"; "/dashboard"]
  = ["/dashboard/invoices?page=1&sort=amount+desc&query=lee"; "/dashboard"]
  /\ Search.handleSearch [("page", "5"); ("sort", "amount desc"); ("query", "le")]
       "/dashboard/invoices" "" ["/dashboard/invoices?page=5&sort=amount+desc&query=le"; "/dashboard"]
     = ["/dashboard/invoices?page=1&sort=amount+desc"; "/dashboard"].
Proof. split; reflexivity. Qed.

(** ** Sample runs *)

Example StringToNumber_samples :
  JsNumber.StringToNumber "12.34" = 0x1.8ae147ae147aep+3%float
  /\ JsNumber.StringToNumber " 42 " = 42%float
  /\ JsNumber.StringToNumber "" = 0%float
  /\ JsNumber.StringToNumber "1e3" = 1000%float
  /\ JsNumber.StringToNumber "0x1F" = 31%float
  /\ JsNumber.StringToNumber "-.5" = (-0.5)%float
  /\ JsNumber.StringToNumber "-Infinity" = PrimFloat.neg_infinity
  /\ JsNumber.StringToNumber "9007199254740993" = 9007199254740992%float
  /\ PrimFloat.is_nan (JsNumber.StringToNumber "12,34") = true
  /\ PrimFloat.is_nan (JsNumber.StringToNumber "1e") = true.
Proof. repeat split; reflexivity. Qed.

(** A valid create in a calm world: one insert of 1234 cents dated by the
    clock, one revalidation, the redirect. *)
Example createInvoice_run :
  createInvoice emptyState (form "customer-1" "12.34" "paid") (calmWorld [])
  = (Throw (NEXT_REDIRECT "/dashboard/invoices"),
     {| invoices := [ {| Sql.id := "invoice-0"; Sql.customer_id := JsString "customer-1";
                         Sql.amount := JsNumber 1234%float; Sql.status := JsString "paid";
                         Sql.date := JsString "2024-05-06" |} ];
        sqlFault := sqlFault (calmWorld []);
        newId := newId (calmWorld []);
        now := now (calmWorld []);
        signInFault := signInFault (calmWorld []);
        log := [ Sql (INSERT_INTO_invoices (JsString "customer-1") (JsNumber 1234%float)
                        (JsString "paid") (JsString "2024-05-06")) true;
                 RevalidatePath "/dashboard/invoices";
                 Redirect "/dashboard/invoices" ] |}).
Proof. reflexivity. Qed.

(** An empty submission: every field is reported, each with its message. *)
Example createInvoice_empty_form :
  createInvoice emptyState [] (calmWorld [])
  = (Return {| errors := Some {[ "customerId" := ["Please select a customer"];
                                 "amount" := ["Please enter an amount greater than $0"];
                                 "status" := ["Please select an invoice status"] ]};
               message := Some "Missing fields. Failed to create invoice." |},
     calmWorld []).
Proof. vm_compute. reflexivity. Qed.

(** A wrong password, and a failure that is not the sign-in library's. *)
Example authenticate_runs :
  let wrongPassword := fun (_ : string) (_ : FormData) =>
        Some (AuthError "CredentialsSignin" "Read more at https://errors.authjs.dev") in
  let w := {| invoices := []; sqlFault := fun _ _ => None; newId := fun _ => "";
              now := ""; signInFault := wrongPassword; log := [] |} in
  (authenticate None [("email", EntryString "user@nextmail.com")] w).1
  = Return (Some "Invalid credentials.")
  /\ (authenticate None [] (brokenWorld [])).1 = Throw (OtherError "fetch failed").
Proof. split; reflexivity. Qed.

(** * Further properties of the actions *)

(** ** [deleteInvoice] *)

Lemma deleteInvoice_run (id : string) (w : World) :
  deleteInvoice id w
  = match sqlFault w (DELETE_FROM_invoices id) (invoices w) with
    | Some e =>
        (Throw (OtherError "Database error: Failed to delete invoice!"),
         logged (ConsoleError (errorMessage e))
           (logged (Sql (DELETE_FROM_invoices id) false) w))
    | None =>
        (Return tt,
         logged (RevalidatePath "/dashbaord/invoices")
           (logged (Sql (DELETE_FROM_invoices id) true)
              (withInvoices
                 (Storage.exec (newId w) (DELETE_FROM_invoices id) (invoices w)) w)))
    end.
Proof.
  unfold deleteInvoice, tryCatch, bind, sql, revalidatePath, console_error, throw.
  destruct (sqlFault w (DELETE_FROM_invoices id) (invoices w)); reflexivity.
Qed.

Lemma filter_all_kept {A : Type} (p : A -> bool) (l : list A) :
  Forall (fun x => p x = true) l -> List.filter p l = l.
Proof.
  induction 1 as [|x l Hx _ IH]; [reflexivity|].
  simpl. rewrite Hx, IH. reflexivity.
Qed.

(** X1. What [deleteInvoice] does to its collaborators: when storage accepts
    the delete it is followed by one revalidation, of the path
    '/dashbaord/invoices', and the action returns; when storage rejects it,
    the message of the error is written to the console, the table is left as
    it was, nothing is revalidated, and a new error with the fixed text
    'Database error: Failed to delete invoice!' is thrown in place of the
    original one. *)
Theorem deleteInvoice_effect_order (id : string) (w : World) :
  let outcome := (deleteInvoice id w).1 in
  let w' := (deleteInvoice id w).2 in
  match sqlFault w (DELETE_FROM_invoices id) (invoices w) with
  | None =>
      outcome = Return tt
      /\ appended w w' [ Sql (DELETE_FROM_invoices id) true;
                         RevalidatePath "/dashbaord/invoices" ]
  | Some e =>
      outcome = Throw (OtherError "Database error: Failed to delete invoice!")
      /\ appended w w' [ Sql (DELETE_FROM_invoices id) false;
                         ConsoleError (errorMessage e) ]
      /\ invoices w' = invoices w
  end.
Proof.
  intros outcome w'. subst outcome w'. rewrite deleteInvoice_run. unfold appended.
  destruct (sqlFault w (DELETE_FROM_invoices id) (invoices w)); simpl;
    rewrite <- !app_assoc; repeat split.
Qed.

(** X2. In no execution does [deleteInvoice] revalidate the path
    '/dashboard/invoices' that create and update revalidate, and in no
    execution does it redirect. *)
Theorem deleteInvoice_never_revalidates_the_list (id : string) (w : World) :
  exists events : list Event,
    appended w (deleteInvoice id w).2 events
    /\ ~ In (RevalidatePath "/dashboard/invoices") events
    /\ forall url, ~ In (Redirect url) events.
Proof.
  rewrite deleteInvoice_run. unfold appended.
  destruct (sqlFault w (DELETE_FROM_invoices id) (invoices w)) as [e|]; simpl;
    rewrite <- !app_assoc; eexists; (split; [reflexivity|]); simpl;
    (split; [|intros url]); intros [H|[H|[]]]; discriminate H.
Qed.

(** X3. After a delete that storage accepts, the table holds exactly the
    rows it held whose [id] is another one: no row of that [id] is left and
    no other row is lost. *)
Theorem deleteInvoice_removes_the_id_only (id : string) (w : World) (r : Sql.Row) :
  sqlFault w (DELETE_FROM_invoices id) (invoices w) = None ->
  In r (invoices (deleteInvoice id w).2) <-> In r (invoices w) /\ Sql.id r <> id.
Proof.
  intros Hok. rewrite deleteInvoice_run, Hok. simpl.
  rewrite List.filter_In, negb_true_iff, String.eqb_neq. reflexivity.
Qed.

Lemma deleteInvoice_removes_the_id_only_witness :
  let row0 := {| Sql.id := "invoice-0"; Sql.customer_id := JsString "customer-2";
                 Sql.amount := JsNumber 500%float; Sql.status := JsString "pending";
                 Sql.date := JsString "2024-01-02" |} in
  let row1 := {| Sql.id := "invoice-1"; Sql.customer_id := JsString "customer-3";
                 Sql.amount := JsNumber 700%float; Sql.status := JsString "paid";
                 Sql.date := JsString "2024-02-03" |} in
  let w := calmWorld [row0; row1] in
  sqlFault w (DELETE_FROM_invoices "invoice-0") (invoices w) = None
  /\ (In row1 (invoices (deleteInvoice "invoice-0" w).2)
      <-> In row1 (invoices w) /\ Sql.id row1 <> "invoice-0").
Proof.
  intros row0 row1 w. split; [reflexivity|].
  apply (deleteInvoice_removes_the_id_only "invoice-0" w row1). reflexivity.
Defined.

(** X4. Deleting an [id] that no row has is not an error: storage accepting
    the statement, the action returns, the table is unchanged, and the
    revalidation is still made. *)
Theorem deleteInvoice_of_absent_id (id : string) (w : World) :
  sqlFault w (DELETE_FROM_invoices id) (invoices w) = None ->
  Forall (fun r => Sql.id r <> id) (invoices w) ->
  (deleteInvoice id w).1 = Return tt
  /\ invoices (deleteInvoice id w).2 = invoices w
  /\ appended w (deleteInvoice id w).2
       [ Sql (DELETE_FROM_invoices id) true; RevalidatePath "/dashbaord/invoices" ].
Proof.
  intros Hok Hnone. rewrite deleteInvoice_run, Hok. unfold appended. simpl.
  rewrite <- !app_assoc. repeat split.
  apply filter_all_kept. eapply Forall_impl; [exact Hnone|].
  intros r Hr. simpl. apply negb_true_iff, String.eqb_neq. exact Hr.
Qed.

Lemma deleteInvoice_of_absent_id_witness :
  let row0 := {| Sql.id := "invoice-0"; Sql.customer_id := JsString "customer-2";
                 Sql.amount := JsNumber 500%float; Sql.status := JsString "pending";
                 Sql.date := JsString "2024-01-02" |} in
  let w := calmWorld [row0] in
  sqlFault w (DELETE_FROM_invoices "invoice-9") (invoices w) = None
  /\ Forall (fun r => Sql.id r <> "invoice-9") (invoices w)
  /\ (deleteInvoice "invoice-9" w).1 = Return tt
  /\ invoices (deleteInvoice "invoice-9" w).2 = invoices w
  /\ appended w (deleteInvoice "invoice-9" w).2
       [ Sql (DELETE_FROM_invoices "invoice-9") true; RevalidatePath "/dashbaord/invoices" ].
Proof.
  intros row0 w.
  assert (Hnone : Forall (fun r => Sql.id r <> "invoice-9") (invoices w))
    by (repeat constructor; discriminate).
  split; [reflexivity|]. split; [exact Hnone|].
  apply (deleteInvoice_of_absent_id "invoice-9" w); [reflexivity|exact Hnone].
Defined.

(** X5. Create, then delete what was created: when the identifier storage
    gives to the new row is not the [id] of a row already there, deleting
    that identifier after a successful create gives back the table as it was
    before the create. *)
Theorem create_then_delete_restores_the_table
    (prevState : State) (formData : FormData) (w : World) :
  let created := (createInvoice prevState formData w).2 in
  let id := newId w (invoices w) in
  offends formData = false ->
  sqlFault w (insertOf formData w) (invoices w) = None ->
  sqlFault created (DELETE_FROM_invoices id) (invoices created) = None ->
  Forall (fun r => Sql.id r <> id) (invoices w) ->
  invoices (deleteInvoice id created).2 = invoices w.
Proof.
  intros created id Hv Hins Hdel Hfresh.
  rewrite deleteInvoice_run, Hdel. simpl.
  subst created. rewrite (createInvoice_valid _ _ _ Hv), Hins. simpl.
  rewrite List.filter_app. simpl. fold id. rewrite String.eqb_refl. simpl.
  rewrite app_nil_r. apply filter_all_kept.
  eapply Forall_impl; [exact Hfresh|].
  intros r Hr. simpl. apply negb_true_iff, String.eqb_neq. exact Hr.
Qed.

Lemma create_then_delete_restores_the_table_witness :
  let row5 := {| Sql.id := "invoice-5"; Sql.customer_id := JsString "customer-2";
                 Sql.amount := JsNumber 500%float; Sql.status := JsString "pending";
                 Sql.date := JsString "2024-01-02" |} in
  let formData := form "customer-1" "12.34" "paid" in
  let w := calmWorld [row5] in
  let created := (createInvoice emptyState formData w).2 in
  invoices created <> invoices w
  /\ invoices (deleteInvoice (newId w (invoices w)) created).2 = invoices w.
Proof.
  intros row5 formData w created. split; [discriminate|].
  apply (create_then_delete_restores_the_table emptyState formData w);
    try reflexivity.
  repeat constructor. discriminate.
Defined.

(** ** [updateInvoice] *)

(** X6. What [updateInvoice] does to its collaborators, case by case: a
    rejected submission makes no call and leaves the table alone; an update
    that storage rejects is the only call, the table is left alone and the
    outcome is the database message; an accepted update is followed by one
    revalidation of the invoice list and then the redirect, in that order. *)
Theorem updateInvoice_effect_order
    (id : string) (prevState : State) (formData : FormData) (w : World) :
  let outcome := (updateInvoice id prevState formData w).1 in
  let w' := (updateInvoice id prevState formData w).2 in
  if offends formData
  then (exists st, outcome = Return st) /\ appended w w' [] /\ invoices w' = invoices w
  else match sqlFault w (updateOf id formData) (invoices w) with
       | Some _ =>
           outcome = Return {| errors := None;
                               message := Some "Database error: Failed to create invoice." |}
           /\ appended w w' [Sql (updateOf id formData) false]
           /\ invoices w' = invoices w
       | None =>
           outcome = Throw (NEXT_REDIRECT "/dashboard/invoices")
           /\ appended w w' [ Sql (updateOf id formData) true;
                              RevalidatePath "/dashboard/invoices";
                              Redirect "/dashboard/invoices" ]
       end.
Proof.
  intros outcome w'. subst outcome w'. unfold appended.
  destruct (offends formData) eqn:Hv.
  - rewrite (updateInvoice_invalid _ _ _ _ Hv). simpl.
    rewrite app_nil_r. repeat split. eexists; reflexivity.
  - rewrite (updateInvoice_valid _ _ _ _ Hv).
    destruct (sqlFault w (updateOf id formData) (invoices w)); simpl.
    + repeat split.
    + rewrite <- !app_assoc. repeat split.
Qed.

Lemma exec_update_absent (gen : list Sql.Row -> string) (c a s : JsValue) (id : string)
    (rows : list Sql.Row) :
  Forall (fun r => Sql.id r <> id) rows ->
  Storage.exec gen (UPDATE_invoices c a s id) rows = rows.
Proof.
  induction 1 as [|r rows Hr _ IH]; [reflexivity|].
  simpl in *. rewrite IH.
  destruct (String.eqb_spec (Sql.id r) id); [contradiction|reflexivity].
Qed.

Lemma exec_update_twice (gen : list Sql.Row -> string) (c a s : JsValue) (id : string)
    (rows : list Sql.Row) :
  Storage.exec gen (UPDATE_invoices c a s id)
    (Storage.exec gen (UPDATE_invoices c a s id) rows)
  = Storage.exec gen (UPDATE_invoices c a s id) rows.
Proof.
  induction rows as [|r rows IH]; [reflexivity|].
  simpl in *. rewrite IH. f_equal.
  destruct (String.eqb (Sql.id r) id) eqn:E; simpl; rewrite E; reflexivity.
Qed.

(** X7. Updating an [id] that no row has is not an error: for a valid
    submission that storage accepts, the action revalidates and redirects as
    after any update, and the table is unchanged. *)
Theorem updateInvoice_of_absent_id
    (id : string) (prevState : State) (formData : FormData) (w : World) :
  offends formData = false ->
  sqlFault w (updateOf id formData) (invoices w) = None ->
  Forall (fun r => Sql.id r <> id) (invoices w) ->
  (updateInvoice id prevState formData w).1 = Throw (NEXT_REDIRECT "/dashboard/invoices")
  /\ invoices (updateInvoice id prevState formData w).2 = invoices w.
Proof.
  intros Hv Hok Hnone. rewrite (updateInvoice_valid _ _ _ _ Hv), Hok. simpl.
  split; [reflexivity|].
  apply (exec_update_absent (newId w)). exact Hnone.
Qed.

Lemma updateInvoice_of_absent_id_witness :
  let row0 := {| Sql.id := "invoice-0"; Sql.customer_id := JsString "customer-2";
                 Sql.amount := JsNumber 500%float; Sql.status := JsString "pending";
                 Sql.date := JsString "2024-01-02" |} in
  let formData := form "customer-1" "12.34" "paid" in
  let w := calmWorld [row0] in
  offends formData = false
  /\ sqlFault w (updateOf "invoice-9" formData) (invoices w) = None
  /\ Forall (fun r => Sql.id r <> "invoice-9") (invoices w)
  /\ (updateInvoice "invoice-9" emptyState formData w).1
     = Throw (NEXT_REDIRECT "/dashboard/invoices")
  /\ invoices (updateInvoice "invoice-9" emptyState formData w).2 = invoices w.
Proof.
  intros row0 formData w.
  assert (Hnone : Forall (fun r => Sql.id r <> "invoice-9") (invoices w))
    by (repeat constructor; discriminate).
  do 2 (split; [reflexivity|]). split; [exact Hnone|].
  apply (updateInvoice_of_absent_id "invoice-9" emptyState formData w);
    [reflexivity|reflexivity|exact Hnone].
Defined.

(** X8. Submitting the same valid update twice changes nothing the second
    time: the table after the second accepted update is the table after the
    first. *)
Theorem updateInvoice_twice
    (id : string) (prevState prevState' : State) (formData : FormData) (w : World) :
  let updated := (updateInvoice id prevState formData w).2 in
  offends formData = false ->
  sqlFault w (updateOf id formData) (invoices w) = None ->
  sqlFault updated (updateOf id formData) (invoices updated) = None ->
  invoices (updateInvoice id prevState' formData updated).2 = invoices updated.
Proof.
  intros updated Hv Hok Hok'.
  rewrite (updateInvoice_valid _ _ _ _ Hv), Hok'. simpl.
  subst updated. rewrite (updateInvoice_valid _ _ _ _ Hv), Hok. simpl.
  apply (exec_update_twice (newId w)).
Qed.

Lemma updateInvoice_twice_witness :
  let row0 := {| Sql.id := "invoice-0"; Sql.customer_id := JsString "customer-2";
                 Sql.amount := JsNumber 500%float; Sql.status := JsString "pending";
                 Sql.date := JsString "2024-01-02" |} in
  let formData := form "customer-1" "12.34" "paid" in
  let w := calmWorld [row0] in
  let updated := (updateInvoice "invoice-0" emptyState formData w).2 in
  invoices updated <> invoices w
  /\ invoices (updateInvoice "invoice-0" emptyState formData updated).2 = invoices updated.
Proof.
  intros row0 formData w updated. split.
  - intros H. apply (f_equal (fun rows => match rows with
                                          | r :: _ => wellFormedRow r && match Sql.status r with
                                                      | JsString s => String.eqb s "paid"
                                                      | _ => false
                                                      end
                                          | [] => false
                                          end)) in H.
    vm_compute in H. discriminate H.
  - apply (updateInvoice_twice "invoice-0" emptyState emptyState formData w); reflexivity.
Defined.

(** ** What a submission can and cannot reach *)

Lemma get_skips_other (formData formData' : FormData) (k : string)
    (v : FormDataEntryValue) (name : string) :
  k <> name ->
  FormData.get (formData ++ (k, v) :: formData') name
  = FormData.get (formData ++ formData') name.
Proof.
  intros Hne. induction formData as [|[k0 v0] rest IH]; simpl.
  - destruct (String.eqb_spec k name); [contradiction|reflexivity].
  - rewrite IH. reflexivity.
Qed.

Lemma isField_false (k : string) :
  isField k = false -> k <> "customerId" /\ k <> "amount" /\ k <> "status".
Proof.
  unfold isField. intros H.
  apply orb_false_iff in H as [H H3]. apply orb_false_iff in H as [H1 H2].
  repeat split; apply String.eqb_neq; assumption.
Qed.

(** The two actions read a submission through the three fields only. *)
Lemma actions_read_three_fields
    (id : string) (prevState prevState' : State) (formData formData' : FormData)
    (w : World) :
  FormData.get formData "customerId" = FormData.get formData' "customerId" ->
  FormData.get formData "amount" = FormData.get formData' "amount" ->
  FormData.get formData "status" = FormData.get formData' "status" ->
  createInvoice prevState formData w = createInvoice prevState' formData' w
  /\ updateInvoice id prevState formData w = updateInvoice id prevState' formData' w.
Proof.
  intros H1 H2 H3. unfold createInvoice, updateInvoice.
  rewrite H1, H2, H3. split; reflexivity.
Qed.

(** X9. An entry of the form under any name other than [customerId],
    [amount] and [status] (an [id], a [date]) has no influence, wherever it
    stands in the form, and neither has the previous state: create and
    update give the same outcome and leave the same world with the entry as
    without it. *)
Theorem other_form_entries_are_ignored
    (id : string) (prevState prevState' : State) (formData formData' : FormData)
    (k : string) (v : FormDataEntryValue) (w : World) :
  isField k = false ->
  createInvoice prevState (formData ++ (k, v) :: formData') w
  = createInvoice prevState' (formData ++ formData') w
  /\ updateInvoice id prevState (formData ++ (k, v) :: formData') w
     = updateInvoice id prevState' (formData ++ formData') w.
Proof.
  intros Hk. apply isField_false in Hk as (H1 & H2 & H3).
  apply actions_read_three_fields; apply get_skips_other; assumption.
Qed.

Lemma other_form_entries_are_ignored_witness :
  let formData := form "customer-1" "12.34" "paid" in
  isField "date" = false
  /\ createInvoice emptyState (("date", EntryString "1999-01-01") :: formData) (calmWorld [])
     = createInvoice emptyState formData (calmWorld [])
  /\ updateInvoice "invoice-0" emptyState
       (("date", EntryString "1999-01-01") :: formData) (calmWorld [])
     = updateInvoice "invoice-0" emptyState formData (calmWorld []).
Proof.
  intros formData. split; [reflexivity|].
  apply (other_form_entries_are_ignored "invoice-0" emptyState emptyState [] formData
           "date" (EntryString "1999-01-01") (calmWorld [])).
  reflexivity.
Defined.

Lemma beforeT_app (d t : string) :
  occurs "T" d = false -> beforeT (d +:+ String "T" t) = d.
Proof.
  induction d as [|c d IH]; simpl; [reflexivity|].
  intros H. apply orb_false_iff in H as [Hc Hd].
  rewrite Hc, (IH Hd). reflexivity.
Qed.

(** X10. The date of a created invoice is read off the clock: when the
    clock's ISO string is a date, a 'T' and a time, the new row carries that
    date, whatever the form holds. *)
Theorem created_invoice_is_dated_by_the_clock
    (prevState : State) (formData : FormData) (w : World) (day time : string) :
  offends formData = false ->
  sqlFault w (insertOf formData w) (invoices w) = None ->
  now w = day +:+ String "T" time ->
  occurs "T" day = false ->
  exists row,
    invoices (createInvoice prevState formData w).2 = invoices w ++ [row]
    /\ Sql.date row = JsString day
    /\ Sql.id row = newId w (invoices w).
Proof.
  intros Hv Hok Hnow Hday. rewrite (createInvoice_valid _ _ _ Hv), Hok. simpl.
  eexists. split; [reflexivity|]. simpl.
  rewrite Hnow, (beforeT_app _ _ Hday). split; reflexivity.
Qed.

Lemma created_invoice_is_dated_by_the_clock_witness :
  let formData := ("date", EntryString "1999-01-01") :: form "customer-1" "12.34" "paid" in
  let w := calmWorld [] in
  now w = "2024-05-06" +:+ String "T" "10:11:12.000Z"
  /\ exists row,
       invoices (createInvoice emptyState formData w).2 = invoices w ++ [row]
       /\ Sql.date row = JsString "2024-05-06"
       /\ Sql.id row = newId w (invoices w).
Proof.
  intros formData w. split; [reflexivity|].
  apply (created_invoice_is_dated_by_the_clock emptyState formData w
           "2024-05-06" "10:11:12.000Z"); reflexivity.
Defined.

(** ** What validation lets into the table *)

Lemma valid_fields (formData : FormData) :
  offends formData = false ->
  exists c s,
    FormData.get formData "customerId" = JsString c
    /\ FormData.get formData "status" = JsString s
    /\ String.eqb s "pending" || String.eqb s "paid" = true.
Proof.
  unfold offends. intros H.
  apply orb_false_iff in H as [H Hs]. apply orb_false_iff in H as [Hc _].
  destruct (FormData.get formData "customerId") as [| |c| |]; try discriminate Hc.
  destruct (FormData.get formData "status") as [| |s| |]; try discriminate Hs.
  exists c, s. repeat split. simpl in Hs. apply negb_false_iff in Hs. exact Hs.
Qed.

Lemma Forall_filter_kept {A : Type} (P : A -> Prop) (p : A -> bool) (l : list A) :
  Forall P l -> Forall P (List.filter p l).
Proof.
  induction 1 as [|x l Hx _ IH]; simpl; [constructor|].
  destruct (p x); [constructor; assumption|assumption].
Qed.

(** X11. The three actions keep the table well formed: if every row has a
    string for its customer, a number for its amount, 'pending' or 'paid'
    for its status and a string for its date, then so has every row after
    any execution of create, update or delete. *)
Theorem actions_keep_rows_well_formed
    (id : string) (prevState : State) (formData : FormData) (w : World) :
  Forall (fun r => wellFormedRow r = true) (invoices w) ->
  Forall (fun r => wellFormedRow r = true) (invoices (createInvoice prevState formData w).2)
  /\ Forall (fun r => wellFormedRow r = true)
       (invoices (updateInvoice id prevState formData w).2)
  /\ Forall (fun r => wellFormedRow r = true) (invoices (deleteInvoice id w).2).
Proof.
  intros Hw. repeat split.
  - destruct (offends formData) eqn:Hv.
    + rewrite (createInvoice_invalid _ _ _ Hv). exact Hw.
    + rewrite (createInvoice_valid _ _ _ Hv).
      destruct (sqlFault w (insertOf formData w) (invoices w)); simpl; [exact Hw|].
      apply Forall_app. split; [exact Hw|].
      destruct (valid_fields _ Hv) as (c & s & Hc & Hs & Hin).
      constructor; [|constructor].
      unfold wellFormedRow. simpl. rewrite Hc, Hs. exact Hin.
  - destruct (offends formData) eqn:Hv.
    + rewrite (updateInvoice_invalid _ _ _ _ Hv). exact Hw.
    + rewrite (updateInvoice_valid _ _ _ _ Hv).
      destruct (sqlFault w (updateOf id formData) (invoices w)); simpl; [exact Hw|].
      destruct (valid_fields _ Hv) as (c & s & Hc & Hs & Hin).
      rewrite Hc, Hs. clear Hc Hs.
      induction Hw as [|r rows Hr _ IH]; simpl; constructor; [|exact IH].
      destruct (String.eqb (Sql.id r) id); [|exact Hr].
      unfold wellFormedRow in *. simpl.
      destruct (Sql.customer_id r), (Sql.amount r), (Sql.status r), (Sql.date r);
        try discriminate Hr; exact Hin.
  - rewrite deleteInvoice_run.
    destruct (sqlFault w (DELETE_FROM_invoices id) (invoices w)); simpl; [exact Hw|].
    apply Forall_filter_kept. exact Hw.
Qed.

Lemma actions_keep_rows_well_formed_witness :
  let row0 := {| Sql.id := "invoice-0"; Sql.customer_id := JsString "customer-2";
                 Sql.amount := JsNumber 500%float; Sql.status := JsString "pending";
                 Sql.date := JsString "2024-01-02" |} in
  let formData := form "customer-1" "12.34" "paid" in
  let w := calmWorld [row0] in
  Forall (fun r => wellFormedRow r = true) (invoices w)
  /\ Forall (fun r => wellFormedRow r = true) (invoices (createInvoice emptyState formData w).2)
  /\ Forall (fun r => wellFormedRow r = true)
       (invoices (updateInvoice "invoice-0" emptyState formData w).2)
  /\ Forall (fun r => wellFormedRow r = true) (invoices (deleteInvoice "invoice-0" w).2).
Proof.
  intros row0 formData w.
  assert (Hw : Forall (fun r => wellFormedRow r = true) (invoices w))
    by (repeat constructor).
  split; [exact Hw|].
  apply (actions_keep_rows_well_formed "invoice-0" emptyState formData w Hw).
Defined.

(** ** The messages of a rejected submission *)

Lemma get_defined (formData : FormData) (name : string) :
  FormData.get formData name <> JsUndefined.
Proof.
  induction formData as [|[k v] rest IH]; simpl; [discriminate|].
  destruct (String.eqb k name); [destruct v; discriminate|exact IH].
Qed.

Lemma errors_at_other (v1 v2 v3 : JsValue) (k : string) :
  isField k = false ->
  z.fieldErrors (z.flatten (submissionIssues v1 v2 v3)) !! k = None.
Proof.
  intros Hk. apply isField_false in Hk as (H1 & H2 & H3).
  rewrite flatten_lookup. unfold submissionIssues. rewrite !messagesAt_app.
  rewrite (messagesAt_elsewhere k "customerId") by (first [congruence|apply parse_path]).
  rewrite (messagesAt_elsewhere k "amount") by (first [congruence|apply parse_path]).
  rewrite (messagesAt_elsewhere k "status") by (first [congruence|apply parse_path]).
  reflexivity.
Qed.

(** X12. The error map of a rejected create or update, message by message.
    [customerId]: 'Please select a customer' when it is absent or a file.
    [amount]: 'Expected number, received nan' when it does not coerce to a
    number, the message of the [gt(0)] check when it coerces to a number that
    is not greater than 0. [status]: 'Please select an invoice status' when
    it is absent or a file, but the library's own 'Invalid enum value...'
    message when it is a string other than 'pending' and 'paid'. A field
    in order has no entry, nor has any other name. *)
Theorem field_error_messages
    (id : string) (prevState : State) (formData : FormData) (w : World) :
  offends formData = true ->
  exists (errs : gmap string (list string)) (m m' : option string),
    createInvoice prevState formData w = (Return {| errors := Some errs; message := m |}, w)
    /\ updateInvoice id prevState formData w
       = (Return {| errors := Some errs; message := m' |}, w)
    /\ errs !! "customerId"
       = match FormData.get formData "customerId" with
         | JsString _ => None
         | _ => Some ["Please select a customer"]
         end
    /\ errs !! "amount"
       = (if PrimFloat.is_nan (Number (FormData.get formData "amount"))
          then Some ["Expected number, received nan"]
          else if PrimFloat.leb (Number (FormData.get formData "amount")) 0%float
               then Some ["Please enter an amount greater than $0"]
               else None)
    /\ errs !! "status"
       = match FormData.get formData "status" with
         | JsString s =>
             if String.eqb s "pending" || String.eqb s "paid" then None
             else Some ["Invalid enum value. Expected 'pending' | 'paid', received '"
                        +:+ s +:+ "'"]
         | _ => Some ["Please select an invoice status"]
         end
    /\ forall k, isField k = false -> errs !! k = None.
Proof.
  intros H. eexists _, _, _.
  split; [apply createInvoice_invalid; exact H|].
  split; [apply updateInvoice_invalid; exact H|].
  unfold fieldErrorsOf.
  rewrite errors_at_customerId, errors_at_amount, errors_at_status.
  rewrite customerId_messages, amount_messages, status_messages.
  pose proof (get_defined formData "customerId") as Hc.
  pose proof (get_defined formData "status") as Hs.
  repeat split.
  - destruct (FormData.get formData "customerId"); try reflexivity. contradiction.
  - destruct (PrimFloat.is_nan _); [reflexivity|].
    destruct (PrimFloat.leb _ _); reflexivity.
  - destruct (FormData.get formData "status"); try reflexivity; [contradiction|].
    destruct (String.eqb s "pending" || String.eqb s "paid"); reflexivity.
  - intros k Hk. apply errors_at_other. exact Hk.
Qed.

Lemma field_error_messages_witness :
  let formData := [ ("customerId", EntryFile "photo.png"); ("amount", EntryString "twelve");
                    ("status", EntryString "draft") ] in
  offends formData = true
  /\ exists (errs : gmap string (list string)) (m m' : option string),
       createInvoice emptyState formData (calmWorld [])
       = (Return {| errors := Some errs; message := m |}, calmWorld [])
       /\ updateInvoice "invoice-0" emptyState formData (calmWorld [])
          = (Return {| errors := Some errs; message := m' |}, calmWorld [])
       /\ errs !! "customerId" = Some ["Please select a customer"]
       /\ errs !! "amount" = Some ["Expected number, received nan"]
       /\ errs !! "status"
          = Some ["Invalid enum value. Expected 'pending' | 'paid', received 'draft'"]
       /\ forall k, isField k = false -> errs !! k = None.
Proof.
  intros formData. split; [reflexivity|].
  apply (field_error_messages "invoice-0" emptyState formData (calmWorld [])).
  reflexivity.
Defined.

(** * Further properties of the search box *)

Lemma handleSearch_serializes
    (searchParams : URLSearchParams) (pathname term : string) (history : list string) :
  Search.handleSearch searchParams pathname term history
  = Router.replace
      (pathname +:+ "?" +:+ URLSearchParams.toString (searchParamsAfter searchParams term))
      history.
Proof. reflexivity. Qed.

Lemma delete_absent (params : URLSearchParams) (name : string) :
  URLSearchParams.getAll params name = [] -> URLSearchParams.delete params name = params.
Proof.
  unfold URLSearchParams.getAll, URLSearchParams.delete.
  induction params as [|[k v] rest IH]; simpl; [reflexivity|].
  destruct (String.eqb k name); simpl; [discriminate|].
  intros H. rewrite (IH H). reflexivity.
Qed.

Lemma delete_delete (params : URLSearchParams) (name : string) :
  URLSearchParams.delete (URLSearchParams.delete params name) name
  = URLSearchParams.delete params name.
Proof. apply delete_absent, getAll_delete_same. Qed.

Lemma delete_set_same (params : URLSearchParams) (name value : string) :
  URLSearchParams.delete (URLSearchParams.set params name value) name
  = URLSearchParams.delete params name.
Proof.
  unfold URLSearchParams.delete.
  apply (filter_set_other (fun k => negb (String.eqb k name))).
  rewrite String.eqb_refl. reflexivity.
Qed.

(** Setting a name twice is setting it to the second value. *)
Lemma set_set (params : URLSearchParams) (name v1 v2 : string) :
  URLSearchParams.set (URLSearchParams.set params name v1) name v2
  = URLSearchParams.set params name v2.
Proof.
  induction params as [|[k v] rest IH]; simpl.
  - rewrite String.eqb_refl. reflexivity.
  - destruct (String.eqb k name) eqn:E; simpl; rewrite E.
    + rewrite delete_delete. reflexivity.
    + rewrite IH. reflexivity.
Qed.

(** Setting a name that occurs once, to the value it has, changes nothing. *)
Lemma set_same (params : URLSearchParams) (name value : string) :
  URLSearchParams.getAll params name = [value] ->
  URLSearchParams.set params name value = params.
Proof.
  induction params as [|[k v] rest IH]; simpl; [discriminate|].
  unfold URLSearchParams.getAll in *. simpl.
  destruct (String.eqb k name) eqn:E; simpl.
  - intros [= Hv Hrest]. subst v. rewrite (delete_absent rest name Hrest). reflexivity.
  - intros H. rewrite (IH H). reflexivity.
Qed.

Lemma set_absent (params : URLSearchParams) (name value : string) :
  URLSearchParams.getAll params name = [] ->
  URLSearchParams.set params name value = params ++ [(name, value)].
Proof.
  unfold URLSearchParams.getAll.
  induction params as [|[k v] rest IH]; simpl; [reflexivity|].
  destruct (String.eqb k name); simpl; [discriminate|].
  intros H. rewrite (IH H). reflexivity.
Qed.

Lemma getAll_page_after (searchParams : URLSearchParams) (term : string) :
  URLSearchParams.getAll (searchParamsAfter searchParams term) "page" = ["1"].
Proof.
  unfold searchParamsAfter, URLSearchParams.new. destruct (Search.truthy term).
  - rewrite getAll_set_other by discriminate. apply getAll_set_same.
  - rewrite getAll_delete_other by discriminate. apply getAll_set_same.
Qed.

(** A second search, started from the parameters the first one left. *)
Lemma searchParamsAfter_again (searchParams : URLSearchParams) (term1 term2 : string) :
  Search.truthy term1 = true \/ Search.truthy term2 = false ->
  searchParamsAfter (searchParamsAfter searchParams term1) term2
  = searchParamsAfter searchParams term2.
Proof.
  intros H. unfold searchParamsAfter at 1. unfold URLSearchParams.new.
  rewrite (set_same _ "page" "1") by apply getAll_page_after.
  unfold searchParamsAfter, URLSearchParams.new.
  destruct (Search.truthy term1) eqn:E1, (Search.truthy term2) eqn:E2.
  - apply set_set.
  - apply delete_set_same.
  - destruct H; discriminate.
  - apply delete_delete.
Qed.

Lemma truthy_iff (term : string) : Search.truthy term = true <-> term <> "".
Proof. destruct term; simpl; split; intros; try discriminate; try reflexivity; congruence. Qed.

(** X13. Searches compose: after a search for a first term, a search for a
    second term, started from what the URL then holds, leaves exactly the URL
    that searching for the second term at once would have left, provided the
    first term was not empty or the second one is. Still one history entry
    is replaced, none added. *)
Theorem handleSearch_last_term_wins
    (searchParams : URLSearchParams) (pathname term1 term2 : string)
    (history : list string) :
  term1 <> "" \/ term2 = "" ->
  exists query1 : string,
    Search.handleSearch searchParams pathname term1 history
    = Router.replace (pathname +:+ "?" +:+ query1) history
    /\ Search.handleSearch (URLSearchParams.parse query1) pathname term2
         (Search.handleSearch searchParams pathname term1 history)
       = Search.handleSearch searchParams pathname term2 history.
Proof.
  intros H. eexists. split; [apply handleSearch_serializes|].
  rewrite parse_toString, !handleSearch_serializes.
  rewrite searchParamsAfter_again; [reflexivity|].
  destruct H as [H | ->]; [left; apply truthy_iff; exact H|right; reflexivity].
Qed.

Lemma handleSearch_last_term_wins_witness :
  let searchParams := [("query", "le"); ("page", "5"); ("sort", "amount desc")] in
  let history := ["/dashboard/invoices?query=le&page=5&sort=amount+desc"; "/dashboard"] in
  exists query1 : string,
    Search.handleSearch searchParams "/dashboard/invoices" "lee" history
    = Router.replace ("/dashboard/invoices" +:+ "?" +:+ query1) history
    /\ Search.handleSearch (URLSearchParams.parse query1) "/dashboard/invoices" ""
         (Search.handleSearch searchParams "/dashboard/invoices" "lee" history)
       = Search.handleSearch searchParams "/dashboard/invoices" "" history.
Proof.
  intros searchParams history.
  apply (handleSearch_last_term_wins searchParams "/dashboard/invoices" "lee" "" history).
  left. discriminate.
Defined.

(** X14. Searching again for the term just searched for changes nothing:
    started from what the URL holds after a search, the same search leaves
    the same history. *)
Theorem handleSearch_twice
    (searchParams : URLSearchParams) (pathname term : string) (history : list string) :
  exists query : string,
    Search.handleSearch searchParams pathname term history
    = Router.replace (pathname +:+ "?" +:+ query) history
    /\ Search.handleSearch (URLSearchParams.parse query) pathname term
         (Search.handleSearch searchParams pathname term history)
       = Search.handleSearch searchParams pathname term history.
Proof.
  eexists. split; [apply handleSearch_serializes|].
  rewrite parse_toString, !handleSearch_serializes.
  rewrite searchParamsAfter_again; [reflexivity|].
  destruct (Search.truthy term); [left|right]; reflexivity.
Qed.

(** X15. From a URL that has neither a [page] nor a [query] parameter, the
    handler keeps the parameters there are, in their order, and adds after
    them [page=1] and then, when the term is not empty, [query] with the
    term. *)
Theorem handleSearch_without_page_and_query
    (searchParams : URLSearchParams) (pathname term : string) (history : list string) :
  URLSearchParams.get searchParams "page" = None ->
  URLSearchParams.get searchParams "query" = None ->
  Search.handleSearch searchParams pathname term history
  = Router.replace
      (pathname +:+ "?"
       +:+ URLSearchParams.toString
             (searchParams ++ ("page", "1")
                :: (if decide (term = "") then [] else [("query", term)])))
      history.
Proof.
  intros Hp Hq. rewrite handleSearch_serializes. do 3 f_equal.
  rewrite get_head_getAll in Hp, Hq.
  assert (Hp' : URLSearchParams.getAll searchParams "page" = [])
    by (destruct (URLSearchParams.getAll searchParams "page"); [reflexivity|discriminate]).
  assert (Hq' : URLSearchParams.getAll searchParams "query" = [])
    by (destruct (URLSearchParams.getAll searchParams "query"); [reflexivity|discriminate]).
  unfold searchParamsAfter, URLSearchParams.new.
  rewrite (set_absent _ _ _ Hp').
  assert (Hq'' : URLSearchParams.getAll (searchParams ++ [("page", "1")]) "query" = []).
  { unfold URLSearchParams.getAll in *. rewrite List.filter_app, List.map_app, Hq'.
    reflexivity. }
  destruct term as [|c term]; simpl Search.truthy; cbv iota.
  - rewrite (delete_absent _ _ Hq''). reflexivity.
  - rewrite (set_absent _ _ _ Hq''), <- app_assoc.
    destruct (decide (String c term = "")); [discriminate|reflexivity].
Qed.

Lemma handleSearch_without_page_and_query_witness :
  Search.handleSearch [("sort", "amount desc")] "/dashboard/invoices" "lee" ["/dashboard/invoices?sort=amount+desc"]
  = Router.replace
      ("/dashboard/invoices" +:+ "?"
       +:+ URLSearchParams.toString
             ([("sort", "amount desc")] ++ ("page", "1")
                :: (if decide ("lee" = "") then [] else [("query", "lee")])))
      ["/dashboard/invoices?sort=amount+desc"].
Proof.
  apply (handleSearch_without_page_and_query [("sort", "amount desc")]
           "/dashboard/invoices" "lee" ["/dashboard/invoices?sort=amount+desc"]);
    reflexivity.
Defined.

Lemma allBytes_app (p : ascii -> bool) (a b : string) :
  allBytes p (a +:+ b) = allBytes p a && allBytes p b.
Proof.
  induction a as [|c a IH]; [reflexivity|].
  simpl. rewrite IH. apply andb_assoc.
Qed.

Lemma encode_queryBytes (s : string) : allBytes queryByte (URLSearchParams.encode s) = true.
Proof.
  induction s as [|c r IH]; [reflexivity|].
  simpl. rewrite allBytes_app, IH, andb_true_r. each_byte c; reflexivity.
Qed.

Lemma toString_queryBytes (params : URLSearchParams) :
  allBytes queryByte (URLSearchParams.toString params) = true.
Proof.
  induction params as [|[k v] rest IH]; [reflexivity|].
  assert (Hpair : allBytes queryByte
                    (URLSearchParams.encode k +:+ "=" +:+ URLSearchParams.encode v) = true).
  { rewrite allBytes_app, encode_queryBytes.
    change ("=" +:+ URLSearchParams.encode v) with (String "=" (URLSearchParams.encode v)).
    simpl. apply encode_queryBytes. }
  destruct rest as [|p rest]; [exact Hpair|].
  change (URLSearchParams.toString ((k, v) :: p :: rest))
    with ((URLSearchParams.encode k +:+ "=" +:+ URLSearchParams.encode v)
          +:+ String "&" (URLSearchParams.toString (p :: rest))).
  rewrite allBytes_app, Hpair. simpl. exact IH.
Qed.

(** X16. Whatever the term and the parameters hold (spaces, [&], [=], [#],
    bytes beyond ASCII), the query string handed to [replace] is made only
    of letters, digits and [* - . _ + % & =]. *)
Theorem handleSearch_query_is_escaped
    (searchParams : URLSearchParams) (pathname term : string) (history : list string) :
  exists query : string,
    Search.handleSearch searchParams pathname term history
    = Router.replace (pathname +:+ "?" +:+ query) history
    /\ allBytes queryByte query = true.
Proof.
  eexists. split; [apply handleSearch_serializes|]. apply toString_queryBytes.
Qed.

(** * Further properties of a submission *)

Lemma get_app_present (formData extra : FormData) (name : string) :
  In name (List.map fst formData) ->
  FormData.get (formData ++ extra) name = FormData.get formData name.
Proof.
  induction formData as [|[k v] rest IH]; simpl; [contradiction|].
  intros [->|H].
  - rewrite String.eqb_refl. reflexivity.
  - destruct (String.eqb k name); [reflexivity|exact (IH H)].
Qed.

(** X17. When a field occurs more than once in the form, its first entry is
    the one that counts: entries added after a form that has the three
    fields change neither the outcome nor the world that create and update
    leave. *)
Theorem first_entry_of_a_field_counts
    (id : string) (prevState : State) (formData extra : FormData) (w : World) :
  In "customerId" (List.map fst formData) ->
  In "amount" (List.map fst formData) ->
  In "status" (List.map fst formData) ->
  createInvoice prevState (formData ++ extra) w = createInvoice prevState formData w
  /\ updateInvoice id prevState (formData ++ extra) w
     = updateInvoice id prevState formData w.
Proof.
  intros H1 H2 H3. apply actions_read_three_fields; apply get_app_present; assumption.
Qed.

Lemma first_entry_of_a_field_counts_witness :
  let formData := form "customer-1" "12.34" "paid" in
  let extra := [("amount", EntryString "-1"); ("status", EntryString "draft")] in
  createInvoice emptyState (formData ++ extra) (calmWorld [])
  = createInvoice emptyState formData (calmWorld [])
  /\ updateInvoice "invoice-0" emptyState (formData ++ extra) (calmWorld [])
     = updateInvoice "invoice-0" emptyState formData (calmWorld []).
Proof.
  intros formData extra.
  apply (first_entry_of_a_field_counts "invoice-0" emptyState formData extra (calmWorld []));
    simpl; tauto.
Defined.

(** X18. An amount left out of the form, left empty or filled with blanks
    only is coerced to 0: the submission is rejected and the amount is
    reported with the message of the [gt(0)] check, not as a value of the
    wrong type. *)
Theorem blank_amount_is_reported_as_too_small
    (id : string) (prevState : State) (formData : FormData) (w : World) :
  FormData.get formData "amount" = JsNull
  \/ (exists s, FormData.get formData "amount" = JsString s
                /\ JsNumber.trimStart s = "") ->
  exists (errs : gmap string (list string)) (m m' : option string),
    createInvoice prevState formData w = (Return {| errors := Some errs; message := m |}, w)
    /\ updateInvoice id prevState formData w
       = (Return {| errors := Some errs; message := m' |}, w)
    /\ errs !! "amount" = Some ["Please enter an amount greater than $0"].
Proof.
  intros H.
  assert (Hzero : Number (FormData.get formData "amount") = 0%float).
  { destruct H as [-> | (s & -> & Hs)]; [reflexivity|].
    simpl. unfold JsNumber.StringToNumber. rewrite Hs. reflexivity. }
  assert (Hoff : offends formData = true).
  { unfold offends, amountOffends. rewrite Hzero.
    change (PrimFloat.leb 0 0) with true. rewrite !orb_true_r. reflexivity. }
  eexists _, _, _.
  split; [apply createInvoice_invalid; exact Hoff|].
  split; [apply updateInvoice_invalid; exact Hoff|].
  unfold fieldErrorsOf. rewrite errors_at_amount, amount_messages, Hzero. reflexivity.
Qed.

Lemma blank_amount_is_reported_as_too_small_witness :
  let formData := form "customer-1" "   " "paid" in
  exists (errs : gmap string (list string)) (m m' : option string),
    createInvoice emptyState formData (calmWorld [])
    = (Return {| errors := Some errs; message := m |}, calmWorld [])
    /\ updateInvoice "invoice-0" emptyState formData (calmWorld [])
       = (Return {| errors := Some errs; message := m' |}, calmWorld [])
    /\ errs !! "amount" = Some ["Please enter an amount greater than $0"].
Proof.
  intros formData.
  apply (blank_amount_is_reported_as_too_small "invoice-0" emptyState formData
           (calmWorld [])).
  right. exists "   ". split; reflexivity.
Defined.
